(** * co2js-injector: the carbon report action, embedded and verified

    A shallow embedding of [src/index.ts]: the byte accountant
    ([calculateBytes]), the Cloudflare analytics fetcher
    ([fetchCloudflareAnalytics]), the report composer ([buildCarbonTxt]) and
    the orchestrator ([run]), followed by the properties the specification
    states about them.

    The program is effectful JavaScript.  Its values are modelled by the
    untyped [Js.value] (the fetcher reads the response body as [any]), its
    file system by a tree ([Fs.node]), and its effects by a reader / state /
    exception monad [M] over an environment (action inputs, disk, clock,
    network) and a trace of emitted events. *)

From Stdlib Require Import String Ascii List ZArith NArith Bool Lia DecimalString.
Import ListNotations.

Set Warnings "-register-all".

Open Scope string_scope.
Open Scope list_scope.

(** String concatenation, as template literals and [+] on strings do it. *)
Infix "+++" := String.append (at level 60, right associativity) : string_scope.

(** The line feed and the double quote, by their ASCII codes. *)
Definition LF : string := String (ascii_of_nat 10) EmptyString.
Definition DQ : string := String (ascii_of_nat 34) EmptyString.

(** [xs.join(sep)] on an array of strings. *)
Definition join (sep : string) (xs : list string) : string := String.concat sep xs.

(** [s.slice(0, n)] for a non-negative [n]. *)
Definition slice0 (n : nat) (s : string) : string := String.substring 0 n s.

(** Decimal rendering of an integer-valued JS number. *)
Definition number_to_string (z : Z) : string := NilZero.string_of_int (Z.to_int z).

(** [s.split(sep)] for a one-character separator. *)
Fixpoint split_on (sep : ascii) (s : string) : list string :=
  match s with
  | EmptyString => [EmptyString]
  | String c r =>
      if Ascii.eqb c sep then EmptyString :: split_on sep r
      else match split_on sep r with
           | h :: t => String c h :: t
           | [] => [String c EmptyString]
           end
  end.

(** [c] occurs in [s]. *)
Fixpoint has_char (c : ascii) (s : string) : bool :=
  match s with
  | EmptyString => false
  | String a r => Ascii.eqb a c || has_char c r
  end.

(** [s.startsWith(p)]. *)
Fixpoint starts_with (p s : string) : bool :=
  match p, s with
  | EmptyString, _ => true
  | String a p', String b s' => Ascii.eqb a b && starts_with p' s'
  | String _ _, EmptyString => false
  end.

(** [s.includes(p)]. *)
Fixpoint includes (p s : string) : bool :=
  starts_with p s ||
  match s with
  | EmptyString => false
  | String _ r => includes p r
  end.


(** ** JavaScript values *)

Module Js.

(** What [JSON.parse] builds, plus [undefined], which reading an absent
    property yields.  Numbers are the integer-valued ones (request and byte
    counts); an object lists its own properties, each key once. *)
Inductive value : Type :=
| VUndefined
| VNull
| VBool (b : bool)
| VNum (z : Z)
| VStr (s : string)
| VArr (items : list value)
| VObj (props : list (string * value)).

(** A thrown value: an [Error] instance with its message, or anything else. *)
Inductive exn : Type :=
| JsError (message : string)
| JsThrown (v : value).

Inductive outcome (A : Type) : Type :=
| Return (a : A)
| Throw (e : exn).
Arguments Return {A} a.
Arguments Throw {A} e.

Definition nullish (v : value) : bool :=
  match v with
  | VUndefined | VNull => true
  | _ => false
  end.

(** ToBoolean. *)
Definition truthy (v : value) : bool :=
  match v with
  | VUndefined | VNull => false
  | VBool b => b
  | VNum z => negb (z =? 0)%Z
  | VStr s => negb (s =? EmptyString)%string
  | VArr _ | VObj _ => true
  end.

(** [v ?? d]. *)
Definition coalesce (v d : value) : value := if nullish v then d else v.

(** [typeof v === "number"]. *)
Definition is_number (v : value) : bool :=
  match v with
  | VNum _ => true
  | _ => false
  end.

(** ToString, as a template literal applies it. *)
Fixpoint to_string (v : value) : string :=
  match v with
  | VUndefined => "undefined"
  | VNull => "null"
  | VBool true => "true"
  | VBool false => "false"
  | VNum z => number_to_string z
  | VStr s => s
  | VArr items =>
      join "," (map (fun x => if nullish x then EmptyString else to_string x) items)
  | VObj _ => "[object Object]"
  end.

Fixpoint own (k : string) (props : list (string * value)) : value :=
  match props with
  | [] => VUndefined
  | (k', v) :: rest => if (k =? k')%string then v else own k rest
  end.

(** [v.k] on a [v] that is neither [null] nor [undefined], for the property
    names the program reads (none of them names a prototype method other
    than [length]). *)
Definition member (v : value) (k : string) : value :=
  match v with
  | VObj props => own k props
  | VArr items =>
      if (k =? "length")%string then VNum (Z.of_nat (List.length items)) else VUndefined
  | VStr s =>
      if (k =? "length")%string then VNum (Z.of_nat (String.length s)) else VUndefined
  | _ => VUndefined
  end.

(** [v.k]: a TypeError on [null] and [undefined] (the wording is V8's). *)
Definition get (v : value) (k : string) : outcome value :=
  if nullish v
  then Throw (JsError ("Cannot read properties of " +++ to_string v
                       +++ " (reading '" +++ k +++ "')"))
  else Return (member v k).

(** [v?.k]. *)
Definition get_opt (v : value) (k : string) : value :=
  if nullish v then VUndefined else member v k.

(** [v?.[i]]. *)
Definition at_opt (v : value) (i : nat) : value :=
  match v with
  | VArr items => nth i items VUndefined
  | VStr s =>
      match String.get i s with
      | Some c => VStr (String c EmptyString)
      | None => VUndefined
      end
  | VObj props => own (number_to_string (Z.of_nat i)) props
  | _ => VUndefined
  end.

(** What [for (const x of v)] visits: the elements of an array, the
    characters of a string; anything else JSON can hold is not iterable.
    [name] is the source text of the iterated expression, which V8 quotes. *)
Definition iterate (name : string) (v : value) : outcome (list value) :=
  match v with
  | VArr items => Return items
  | VStr s => Return (map (fun c => VStr (String c EmptyString)) (list_ascii_of_string s))
  | _ => Throw (JsError (name +++ " is not iterable"))
  end.

(** [v > 0].  [str_gt0] is the runtime's string-to-number comparison, which
    objects and arrays reach through ToString. *)
Definition gt_zero (str_gt0 : string -> bool) (v : value) : bool :=
  match v with
  | VUndefined | VNull => false
  | VBool b => b
  | VNum z => (0 <? z)%Z
  | VStr s => str_gt0 s
  | VArr _ | VObj _ => str_gt0 (to_string v)
  end.

End Js.

Import Js.

(** ** The file system *)

Module Fs.

Inductive special : Type := Fifo | Socket | CharDevice | BlockDevice.

(** What [stat] sees: symbolic links are already followed.  A directory
    lists its entries by name. *)
Inductive node : Type :=
| File (size : N)
| Dir (entries : list (string * node))
| Special (kind : special) (size : N).

(** The part of [fs.Stats] the program reads.  A directory's own [size] is
    never read. *)
Record Stats : Type := mkStats {
  isFile : bool;
  isDirectory : bool;
  size : N
}.

Definition stat_of (n : node) : Stats :=
  match n with
  | File sz => mkStats true false sz
  | Dir _ => mkStats false true 0
  | Special _ sz => mkStats false false sz
  end.

(** The disk: the tree under [/] and the working directory of the process,
    as the names leading to it from [/]. *)
Record volume : Type := mkVolume {
  root : node;
  process_cwd : list string
}.

Fixpoint entry (name : string) (es : list (string * node)) : option node :=
  match es with
  | [] => None
  | (n, x) :: rest => if (name =? n)%string then Some x else entry name rest
  end.

(** Path resolution, one component at a time.  [up] holds the directories
    passed on the way down, nearest first; an empty component and [.] stay in
    place, [..] climbs (and stays at [/]); any component after a
    non-directory fails. *)
Fixpoint walk (up : list node) (cur : node) (segs : list string)
  : option (list node * node) :=
  match segs with
  | [] => Some (up, cur)
  | s :: rest =>
      match cur with
      | Dir es =>
          if ((s =? EmptyString) || (s =? "."))%string then walk up cur rest
          else if (s =? "..")%string then
            match up with
            | [] => walk [] cur rest
            | p :: up' => walk up' p rest
            end
          else
            match entry s es with
            | Some child => walk (cur :: up) child rest
            | None => None
            end
      | _ => None
      end
  end.

Definition segments (p : string) : list string := split_on "/" p.

Definition is_absolute (p : string) : bool := starts_with "/" p.

(** The components [p] is resolved along, from [/]. *)
Definition route (d : volume) (p : string) : list string :=
  (if is_absolute p then [] else process_cwd d) ++ segments p.

Definition resolve (d : volume) (p : string) : option node :=
  if (p =? EmptyString)%string then None
  else option_map snd (walk [] (root d) (route d p)).

Definition exists_ (d : volume) (p : string) : bool :=
  match resolve d p with
  | Some _ => true
  | None => false
  end.

(** ENOENT, as [fs.statSync] reports it. *)
Definition enoent (p : string) : exn :=
  JsError ("ENOENT: no such file or directory, stat '" +++ p +++ "'").

Definition stat (d : volume) (p : string) : outcome Stats :=
  match resolve d p with
  | Some n => Return (stat_of n)
  | None => Throw (enoent p)
  end.

Definition is_dir (n : node) : bool :=
  match n with
  | Dir _ => true
  | _ => false
  end.

(** Modelled from the spec: the [glob] package (a dependency, not under
    [src/]), called with the pattern [**/*] and the options [ignore],
    [nodir] and [absolute].  The spec gives it as the capability to
    enumerate all regular files under a root at any depth, leaving out the
    directories named in [ignore] with everything below them.  [matches]
    lists the files found under a node, each by the names leading to it. *)
Fixpoint matches (ignore : list string) (n : node) : list (list string) :=
  match n with
  | File _ => [[]]
  | Dir es =>
      flat_map (fun e =>
                  if is_dir (snd e) && existsb (String.eqb (fst e)) ignore then []
                  else map (cons (fst e)) (matches ignore (snd e)))
               es
  | Special _ _ => []
  end.

(** The options of [glob] the program sets. *)
Record GlobOptions : Type := mkGlobOptions {
  cwd : string;
  ignore : list string;
  nodir : bool;
  absolute : bool
}.

(** The directory an ignore pattern of the form [**/NAME/**] names. *)
Definition ignored_dir (pattern : string) : string :=
  String.substring 3 (String.length pattern - 6) pattern.

(** Modelled from the spec: the paths [glob] returns for the directory
    [cwd], in the one way the program calls it: the pattern [**/*], with
    [nodir] and [absolute] set and [ignore] patterns of the form
    [**/NAME/**].  [absolute: true] only changes how a result is spelled;
    the model spells each result through [cwd], which names the same file. *)
Definition glob_files (d : volume) (pattern : string) (options : GlobOptions)
  : list string :=
  match resolve d (cwd options) with
  | Some (Dir es) =>
      map (fun rel => cwd options +++ "/" +++ join "/" rel)
          (matches (map ignored_dir (ignore options)) (Dir es))
  | _ => []
  end.

End Fs.

(** ** The runtime the action runs on *)

(** The [co2] class of [@tgwf/co2], as [types.d.ts] declares it.  [grams] is
    the type of its estimates, JS numbers that are not integers. *)
Record co2 (grams : Type) : Type := mkCo2 {
  perByte : value -> bool -> grams
}.
Arguments perByte {grams} _ _ _.

(** The built-ins the program calls and the model leaves open. *)
Class Runtime : Type := {
  grams : Type;
  (** an estimate inside a template literal *)
  grams_to_string : grams -> string;
  (** [new co2({ model })] *)
  new_co2 : string -> co2 grams;
  (** [Date.prototype.toISOString], on a date given in milliseconds *)
  toISOString : Z -> string;
  JSON_stringify : value -> string;
  (** [path.join] *)
  path_join : string -> string -> string;
  (** [s > 0] on a string [s] *)
  string_gt_zero : string -> bool
}.

(** ** Data of the program *)

Record CloudflareConfig : Type := mkConfig {
  apiToken : option string;
  zoneId : option string;
  since : option string;
  until : option string;
  enabled : bool
}.

Module TimeRange.
Record t : Type := mk { since : string; until : string }.
End TimeRange.

Module Totals.
Record t : Type := mk { requests : Z; bytes : Z }.
End Totals.

(** An entry of [daily].  The fields hold what the response held: the
    declared types ([string], [number]) are erased at run time. *)
Module Day.
Record t : Type := mk { date : value; requests : value; bytes : value }.
End Day.

Record CloudflareAnalyticsResult : Type := mkResult {
  zone_id : string;
  time_range : TimeRange.t;
  totals : Totals.t;
  daily : list Day.t
}.

(** The argument of [fetch]; [body] is the object [JSON.stringify] is
    applied to. *)
Record request : Type := mkRequest {
  url : string;
  method : string;
  headers : list (string * string);
  body : value
}.

(** A [Response]: [json] is what [response.json()] settles to. *)
Record response : Type := mkResponse {
  ok : bool;
  status : Z;
  statusText : string;
  json : outcome value
}.

Inductive fetched : Type :=
| Responds (r : response)
| Rejects (e : exn).

(** ** Effects *)

Section Program.

Context {RT : Runtime}.

(** What the run leaves behind, in the order it happens. *)
Inductive event : Type :=
| Log (line : string)
| Warning (message : string)
| SetOutput (name : string) (v : grams)
| SetFailed (message : string)
| Fetch (r : request)
| Mkdir (path : string)
| WriteFile (path content : string).

(** What the run reads. *)
Record env : Type := mkEnv {
  inputs : string -> string;
  disk : Fs.volume;
  clock : nat -> Z;
  network : request -> fetched
}.

(** [ticks] counts the readings of the clock: the [n]-th reading returns
    [clock n]. *)
Record state : Type := mkState {
  ticks : nat;
  trace : list event
}.

Definition M (A : Type) : Type := env -> state -> outcome A * state.

Definition ret {A} (a : A) : M A := fun _ s => (Return a, s).

Definition bind {A B} (m : M A) (k : A -> M B) : M B :=
  fun e s =>
    match m e s with
    | (Return a, s') => k a e s'
    | (Throw x, s') => (Throw x, s')
    end.

Definition throw {A} (x : exn) : M A := fun _ s => (Throw x, s).

Definition lift {A} (o : outcome A) : M A := fun _ s => (o, s).

(** [try { m } catch (error) { h error }]. *)
Definition try_catch {A} (m : M A) (h : exn -> M A) : M A :=
  fun e s =>
    match m e s with
    | (Return a, s') => (Return a, s')
    | (Throw x, s') => h x e s'
    end.

Definition emit (ev : event) : M unit :=
  fun _ s => (Return tt, mkState (ticks s) (trace s ++ [ev])).

Notation "x <- m ;; k" := (bind m (fun x => k))
  (at level 61, m at next level, right associativity).
Notation "m ;; k" := (bind m (fun _ => k))
  (at level 61, right associativity).

(** [for (const x of xs) body], threading the locals the body assigns. *)
Fixpoint for_of {X S} (xs : list X) (body : X -> S -> M S) (s : S) : M S :=
  match xs with
  | [] => ret s
  | x :: rest => s' <- body x s ;; for_of rest body s'
  end.

(** [core.getInput], [console.log] and the signals of [@actions/core]. *)
Definition getInput (name : string) : M string := fun e s => (Return (inputs e name), s).
Definition console_log (line : string) : M unit := emit (Log line).
Definition warning (message : string) : M unit := emit (Warning message).
Definition setOutput (name : string) (v : grams) : M unit := emit (SetOutput name v).
Definition setFailed (message : string) : M unit := emit (SetFailed message).

(** The file system calls.  Reads see the disk the run started with: the run
    reads nothing after it writes.  The two writes are recorded in the trace
    and taken to succeed. *)
Definition existsSync (p : string) : M bool := fun e s => (Return (Fs.exists_ (disk e) p), s).
Definition statSync (p : string) : M Fs.Stats := fun e s => (Fs.stat (disk e) p, s).
Definition glob (pattern : string) (options : Fs.GlobOptions) : M (list string) :=
  fun e s => (Return (Fs.glob_files (disk e) pattern options), s).
Definition mkdirSync (p : string) : M unit := emit (Mkdir p).
Definition writeFileSync (p content : string) : M unit := emit (WriteFile p content).

(** [new Date()], in milliseconds since the epoch. *)
Definition new_Date : M Z :=
  fun e s => (Return (clock e (ticks s)), mkState (S (ticks s)) (trace s)).

(** [await fetch(url, init)]. *)
Definition fetch (r : request) : M response :=
  fun e s =>
    let s' := mkState (ticks s) (trace s ++ [Fetch r]) in
    match network e r with
    | Responds resp => (Return resp, s')
    | Rejects x => (Throw x, s')
    end.

(** ** The byte accountant *)

Definition calculateBytes (targetPath : string) : M N :=
  let totalBytes := 0%N in
  found <- existsSync targetPath ;;
  if negb found then throw (JsError ("Path not found: " +++ targetPath)) else
  stats <- statSync targetPath ;;
  if Fs.isFile stats then ret (Fs.size stats) else
  totalBytes <-
    (if Fs.isDirectory stats then
       let pattern := "**/*" in
       files <- glob pattern
                  (Fs.mkGlobOptions targetPath ["**/.git/**"; "**/node_modules/**"]
                                    true true) ;;
       for_of files
         (fun file totalBytes =>
            fileStats <- statSync file ;;
            ret (totalBytes + Fs.size fileStats)%N)
         totalBytes
     else ret totalBytes) ;;
  ret totalBytes.

(** ** The analytics fetcher *)

(** An optional string property is present when it is truthy. *)
Definition present (o : option string) : bool :=
  match o with
  | Some s => negb (s =? EmptyString)%string
  | None => false
  end.

(** [o || d]. *)
Definition or_default (o : option string) (d : string) : string :=
  if present o then match o with Some s => s | None => d end else d.

(** An optional string inside a template literal or an object literal, once
    the guard has found it present. *)
Definition text (o : option string) : string :=
  match o with
  | Some s => s
  | None => "undefined"
  end.

Definition missing_credentials : string :=
  "Cloudflare analytics enabled but api token or zone id not provided; skipping Cloudflare integration.".

Definition endpoint : string := "https://api.cloudflare.com/client/v4/graphql".

(** The GraphQL query, its layout collapsed to single spaces. *)
Definition query : string :=
  "query GetZoneAnalytics($zoneTag: String!, $since: String!, $until: String!) { viewer { zones(filter: { zoneTag: $zoneTag }) { httpRequests1dGroups( limit: 100, filter: { date_geq: $since, date_leq: $until } ) { dimensions { date } sum { requests bytes } } } } }".

(** The request of step 4 for a configuration and a resolved range. *)
Definition analytics_request (config : CloudflareConfig) (since until : string) : request :=
  mkRequest endpoint "POST"
    [("Content-Type", "application/json");
     ("Authorization", "Bearer " +++ text (apiToken config))]
    (VObj [("query", VStr query);
           ("variables", VObj [("zoneTag", VStr (text (zoneId config)));
                               ("since", VStr since);
                               ("until", VStr until)])]).

(** The locals of the normalization loop. *)
Record tally : Type := mkTally {
  totalRequests : Z;
  totalBytes : Z;
  days : list Day.t
}.

(** [t += v] for a number [t] and a [v] found to be a number. *)
Definition plus (t : Z) (v : value) : Z :=
  match v with
  | VNum z => (t + z)%Z
  | _ => t
  end.

(** One round of the loop over [groups]. *)
Definition tally_group (acc : tally) (group : value) : tally :=
  let date := get_opt (get_opt group "dimensions") "date" in
  let requests := coalesce (get_opt (get_opt group "sum") "requests") (VNum 0) in
  let bytes := coalesce (get_opt (get_opt group "sum") "bytes") (VNum 0) in
  let totalRequests :=
    if is_number requests then plus (totalRequests acc) requests else totalRequests acc in
  let totalBytes :=
    if is_number bytes then plus (totalBytes acc) bytes else totalBytes acc in
  let days :=
    if truthy date then days acc ++ [Day.mk date requests bytes] else days acc in
  mkTally totalRequests totalBytes days.

(** [data?.data?.viewer?.zones?.[0]?.httpRequests1dGroups ?? []]. *)
Definition groups_of (data : value) : value :=
  coalesce
    (get_opt (at_opt (get_opt (get_opt (get_opt data "data") "viewer") "zones") 0)
             "httpRequests1dGroups")
    (VArr []).

Definition fetchCloudflareAnalytics (config : CloudflareConfig)
  : M (option CloudflareAnalyticsResult) :=
  if negb (enabled config) then ret None else
  if negb (present (apiToken config)) || negb (present (zoneId config)) then
    warning missing_credentials ;;
    ret None
  else
  now <- new_Date ;;
  let defaultUntil := slice0 10 (toISOString now) in
  let defaultSinceDate := (now - 30 * 24 * 60 * 60 * 1000)%Z in
  let defaultSince := slice0 10 (toISOString defaultSinceDate) in
  let since := slice0 10 (or_default (since config) defaultSince) in
  let until := slice0 10 (or_default (until config) defaultUntil) in
  try_catch
    (response <- fetch (analytics_request config since until) ;;
     if negb (ok response) then
       warning ("Cloudflare API request failed: " +++ number_to_string (status response)
                +++ " " +++ statusText response) ;;
       ret None
     else
     data <- lift (json response) ;;
     errors <- lift (get data "errors") ;;
     if truthy errors && gt_zero string_gt_zero (member errors "length") then
       warning ("Cloudflare API returned errors: " +++ JSON_stringify errors) ;;
       ret None
     else
     let groups := groups_of data in
     visited <- lift (iterate "groups" groups) ;;
     let done := fold_left tally_group visited (mkTally 0 0 []) in
     ret (Some (mkResult (text (zoneId config))
                         (TimeRange.mk since until)
                         (Totals.mk (totalRequests done) (totalBytes done))
                         (days done))))
    (fun error =>
       let message :=
         match error with
         | JsError m => m
         | JsThrown _ => "Unknown Cloudflare error"
         end in
       warning ("Failed to fetch Cloudflare analytics: " +++ message) ;;
       ret None).

(** ** The report composer *)

Record params : Type := mkParams {
  bytes : N;
  greenHosting : bool;
  estimatedCO2 : grams;
  cloudflareAnalytics : option CloudflareAnalyticsResult;
  emissions : co2 grams
}.

Definition bool_to_string (b : bool) : string := if b then "true" else "false".

(** [lines.push(line)]. *)
Definition push (lines : list string) (line : string) : list string := lines ++ [line].

(** The lines pushed before the analytics section. *)
Definition build_lines (p : params) (nowIso : string) : list string :=
  let lines := [] in
  let lines := push lines "# Generated by CO2.js GitHub Action" in
  let lines := push lines ("version = " +++ DQ +++ "0.3" +++ DQ) in
  let lines := push lines ("last_updated = " +++ DQ +++ nowIso +++ DQ) in
  let lines := push lines EmptyString in
  let lines := push lines "[build]" in
  let lines := push lines ("date = " +++ DQ +++ nowIso +++ DQ) in
  let lines := push lines ("total_bytes = " +++ number_to_string (Z.of_N (bytes p))) in
  let lines := push lines ("green_hosting = " +++ bool_to_string (greenHosting p)) in
  let lines := push lines ("estimated_co2_grams = " +++ grams_to_string (estimatedCO2 p)) in
  lines.

(** One round of the loop over [cloudflareAnalytics.daily]. *)
Definition daily_lines (p : params) (lines : list string) (day : Day.t) : list string :=
  let lines := push lines EmptyString in
  let lines := push lines "[[cloudflare.daily]]" in
  let lines := push lines ("date = " +++ DQ +++ to_string (Day.date day) +++ DQ) in
  let lines := push lines ("requests = " +++ to_string (Day.requests day)) in
  let lines := push lines ("bytes = " +++ to_string (Day.bytes day)) in
  let lines :=
    push lines ("estimated_co2_grams = "
                +++ grams_to_string (perByte (emissions p) (Day.bytes day) (greenHosting p))) in
  lines.

(** The lines pushed when [cloudflareAnalytics] is not [null]. *)
Definition cloudflare_lines (p : params) (lines : list string)
    (cloudflareAnalytics : CloudflareAnalyticsResult) : list string :=
  let lines := push lines EmptyString in
  let lines := push lines "[cloudflare]" in
  let lines := push lines ("zone_id = " +++ DQ +++ zone_id cloudflareAnalytics +++ DQ) in
  let lines :=
    push lines ("since = " +++ DQ +++ TimeRange.since (time_range cloudflareAnalytics) +++ DQ) in
  let lines :=
    push lines ("until = " +++ DQ +++ TimeRange.until (time_range cloudflareAnalytics) +++ DQ) in
  let lines :=
    push lines ("requests = "
                +++ number_to_string (Totals.requests (totals cloudflareAnalytics))) in
  let lines :=
    push lines ("bytes = " +++ number_to_string (Totals.bytes (totals cloudflareAnalytics))) in
  let lines :=
    push lines ("estimated_co2_grams = "
                +++ grams_to_string
                      (perByte (emissions p)
                               (VNum (Totals.bytes (totals cloudflareAnalytics)))
                               (greenHosting p))) in
  fold_left (daily_lines p) (daily cloudflareAnalytics) lines.

(** The array [lines] at the end of [buildCarbonTxt]. *)
Definition report_lines (p : params) (nowIso : string) : list string :=
  let lines := build_lines p nowIso in
  match cloudflareAnalytics p with
  | Some analytics => cloudflare_lines p lines analytics
  | None => lines
  end.

Definition buildCarbonTxt (p : params) : M string :=
  now <- new_Date ;;
  let nowIso := toISOString now in
  ret (join LF (report_lines p nowIso)).

(** ** The orchestrator *)

Definition run : M unit :=
  try_catch
    (path_input <- getInput "path" ;;
     let inputPath := or_default (Some path_input) "." in
     green_input <- getInput "green-hosting" ;;
     let greenHosting := (green_input =? "true")%string in
     destination_input <- getInput "destination" ;;
     let destination := or_default (Some destination_input) "." in
     enabled_input <- getInput "cloudflare-enabled" ;;
     let cloudflareEnabled := (enabled_input =? "true")%string in
     cloudflareApiToken <- getInput "cloudflare-api-token" ;;
     cloudflareZoneId <- getInput "cloudflare-zone-id" ;;
     cloudflareSinceInput <- getInput "cloudflare-since" ;;
     cloudflareUntilInput <- getInput "cloudflare-until" ;;
     console_log ("Measuring size for path: " +++ inputPath) ;;
     console_log ("Green hosting: " +++ bool_to_string greenHosting) ;;
     console_log ("Destination: " +++ destination) ;;
     console_log ("Cloudflare integration enabled: " +++ bool_to_string cloudflareEnabled) ;;
     bytes <- calculateBytes inputPath ;;
     console_log ("Total bytes: " +++ number_to_string (Z.of_N bytes)) ;;
     let emissions := new_co2 "1byte" in
     let estimatedCO2 := perByte emissions (VNum (Z.of_N bytes)) greenHosting in
     console_log ("Estimated CO2 emissions: " +++ grams_to_string estimatedCO2 +++ " grams") ;;
     setOutput "emissions" estimatedCO2 ;;
     let cloudflareConfig :=
       mkConfig (Some cloudflareApiToken) (Some cloudflareZoneId)
                (Some cloudflareSinceInput) (Some cloudflareUntilInput)
                cloudflareEnabled in
     cloudflareAnalytics <- fetchCloudflareAnalytics cloudflareConfig ;;
     carbonTxt <- buildCarbonTxt
                    (mkParams bytes greenHosting estimatedCO2 cloudflareAnalytics emissions) ;;
     found <- existsSync destination ;;
     (if negb found then mkdirSync destination else ret tt) ;;
     let reportPath := path_join destination "report.txt" in
     writeFileSync reportPath carbonTxt ;;
     console_log ("Created report.txt at " +++ reportPath))
    (fun error =>
       match error with
       | JsError message => setFailed message
       | JsThrown _ => ret tt
       end).

End Program.

(** ** What the specification measures a path against *)

Module Spec.

Import Fs.

(** The directories the accountant leaves out. *)
Definition ignored_dirs : list string := [".git"; "node_modules"].

(** Every regular file under a node, at any depth: the names leading to it
    and its size. *)
Fixpoint regular_files (n : node) : list (list string * N) :=
  match n with
  | File sz => [([], sz)]
  | Dir es =>
      flat_map (fun e => map (fun f => (fst e :: fst f, snd f)) (regular_files (snd e))) es
  | Special _ _ => []
  end.

(** The directory segments of a file's path: all names but the last. *)
Definition dir_segments (path : list string) : list string := removelast path.

(** The path has a directory segment named [.git] or [node_modules]. *)
Definition excluded (path : list string) : bool :=
  existsb (fun seg => existsb (String.eqb seg) ignored_dirs) (dir_segments path).

Definition sum_sizes (fs : list (list string * N)) : N :=
  fold_right (fun f acc => (snd f + acc)%N) 0%N fs.

(** The regular files under a node that are not excluded. *)
Definition kept (n : node) : list (list string * N) :=
  filter (fun f => negb (excluded (fst f))) (regular_files n).

(** [measure]: the size of a regular file; for a directory, the sizes of
    the regular files under it that are not excluded, added up. *)
Definition measure (n : node) : N :=
  match n with
  | File sz => sz
  | _ => sum_sizes (kept n)
  end.

(** A name a directory can list: not empty, not [.] or [..], without [/]. *)
Definition valid_name (s : string) : bool :=
  negb (s =? EmptyString)%string && negb (s =? ".")%string
  && negb (s =? "..")%string && negb (has_char "/" s).

Fixpoint distinct (names : list string) : bool :=
  match names with
  | [] => true
  | n :: rest => negb (existsb (String.eqb n) rest) && distinct rest
  end.

(** A well-formed tree: every directory lists valid names, each once. *)
Fixpoint wf (n : node) : bool :=
  match n with
  | Dir es =>
      distinct (map fst es)
      && forallb (fun e => valid_name (fst e) && wf (snd e)) es
  | _ => true
  end.

(** The totals and the daily breakdown the specification describes for the
    groups of a response: a missing date leaves the group out of the
    breakdown, a missing numeric field counts as 0. *)
Definition defaulted (field : value) : value := if nullish field then VNum 0 else field.

Definition requests_of (group : value) : value :=
  defaulted (get_opt (get_opt group "sum") "requests").

Definition bytes_of (group : value) : value :=
  defaulted (get_opt (get_opt group "sum") "bytes").

Definition date_of (group : value) : value :=
  get_opt (get_opt group "dimensions") "date".

(** The number a defaulted field adds to a total: its value when it is a
    number, nothing otherwise. *)
Definition amount (field : value) : Z :=
  match field with
  | VNum z => z
  | _ => 0%Z
  end.

Definition sum_of (fields : list value) : Z :=
  fold_right (fun f acc => (amount f + acc)%Z) 0%Z fields.

Definition breakdown (groups : list value) : list Day.t :=
  map (fun g => Day.mk (date_of g) (requests_of g) (bytes_of g))
      (filter (fun g => truthy (date_of g)) groups).

(** The block of one reported day, line by line. *)
Definition daily_block {RT : Runtime} (emissions : co2 grams) (green : bool) (day : Day.t)
  : list string :=
  [ EmptyString;
    "[[cloudflare.daily]]";
    "date = " +++ DQ +++ to_string (Day.date day) +++ DQ;
    "requests = " +++ to_string (Day.requests day);
    "bytes = " +++ to_string (Day.bytes day);
    "estimated_co2_grams = " +++ grams_to_string (perByte emissions (Day.bytes day) green) ].

(** The text of the daily blocks, each after the line feed that ends the
    line before it. *)
Definition blocks_text {RT : Runtime} (emissions : co2 grams) (green : bool)
    (days : list Day.t) : string :=
  fold_right (fun d rest => LF +++ join LF (daily_block emissions green d) +++ rest)
             EmptyString days.

End Spec.

(** ** A deterministic runtime *)

Module Fake.

Fixpoint zeros (k : nat) : string :=
  match k with
  | O => EmptyString
  | S k' => String "0" (zeros k')
  end.

Definition pad (width : nat) (z : Z) : string :=
  let digits := number_to_string z in
  zeros (width - String.length digits) +++ digits.

(** The calendar date of a day number counted from 1970-01-01. *)
Definition civil (days : Z) : Z * Z * Z :=
  let z := (days + 719468)%Z in
  let era := (z / 146097)%Z in
  let doe := (z - era * 146097)%Z in
  let yoe := ((doe - doe / 1460 + doe / 36524 - doe / 146096) / 365)%Z in
  let doy := (doe - (365 * yoe + yoe / 4 - yoe / 100))%Z in
  let mp := ((5 * doy + 2) / 153)%Z in
  let d := (doy - (153 * mp + 2) / 5 + 1)%Z in
  let m := (if mp <? 10 then mp + 3 else mp - 9)%Z in
  let y := (yoe + era * 400 + (if m <=? 2 then 1 else 0))%Z in
  (y, m, d).

Definition iso (ms : Z) : string :=
  let '(y, m, d) := civil (ms / 86400000) in
  let r := (ms mod 86400000)%Z in
  pad 4 y +++ "-" +++ pad 2 m +++ "-" +++ pad 2 d +++ "T"
  +++ pad 2 (r / 3600000) +++ ":" +++ pad 2 (r / 60000 mod 60) +++ ":"
  +++ pad 2 (r / 1000 mod 60) +++ "." +++ pad 3 (r mod 1000) +++ "Z".

(** Estimates in micrograms: three per byte, two on green hosting. *)
Definition estimate (v : value) (green : bool) : Z :=
  match v with
  | VNum z => if green then (2 * z)%Z else (3 * z)%Z
  | _ => 0%Z
  end.

Fixpoint stringify (v : value) : string :=
  match v with
  | VUndefined | VNull => "null"
  | VBool b => if b then "true" else "false"
  | VNum z => number_to_string z
  | VStr s => DQ +++ s +++ DQ
  | VArr items => "[" +++ join "," (map stringify items) +++ "]"
  | VObj props =>
      "{" +++ join "," (map (fun kv => DQ +++ fst kv +++ DQ +++ ":" +++ stringify (snd kv)) props)
      +++ "}"
  end.

Definition runtime : Runtime := {|
  grams := Z;
  grams_to_string := number_to_string;
  new_co2 := fun _ => mkCo2 Z estimate;
  toISOString := iso;
  JSON_stringify := stringify;
  path_join := fun dir file => dir +++ "/" +++ file;
  string_gt_zero := fun s => negb (s =? EmptyString)%string && negb (has_char "-" s)
|}.

End Fake.

(** ** A sample site *)

Module Example.

Import Fs.

(** A build output: two pages, a repository, and an [assets] directory
    with a dependency tree, a script and a named pipe. *)
Definition site : node :=
  Dir [ ("index.html", File 100);
        ("style.css", File 250);
        (".git", Dir [("HEAD", File 23)]);
        ("assets", Dir [ ("node_modules", Dir [("dep.js", File 1000)]);
                         ("app.js", File 5);
                         ("queue", Special Fifo 0) ]) ].

Definition volume : Fs.volume :=
  mkVolume (Dir [("work", Dir [("site", site); ("empty", Dir [])])]) ["work"].

(** The action inputs; an input that is not set reads as the empty string. *)
Fixpoint lookup (pairs : list (string * string)) (name : string) : string :=
  match pairs with
  | [] => EmptyString
  | (k, v) :: rest => if (name =? k)%string then v else lookup rest name
  end.

Definition group (date : string) (requests bytes : Z) : value :=
  VObj [ ("dimensions", VObj [("date", VStr date)]);
         ("sum", VObj [("requests", VNum requests); ("bytes", VNum bytes)]) ].

(** A response body holding [groups] as the daily groups of its first zone. *)
Definition body (groups : value) : value :=
  VObj [("data", VObj [("viewer", VObj [("zones",
          VArr [VObj [("httpRequests1dGroups", groups)]])])])].

Definition two_days : value :=
  VArr [group "2024-01-01" 10 1000; group "2024-01-02" 5 500].

(** Groups with holes: no date, a null sum, no bytes. *)
Definition ragged : value :=
  VArr [ group "2024-01-01" 10 1000;
         VObj [("sum", VObj [("requests", VNum 4); ("bytes", VNum 40)])];
         VObj [("dimensions", VObj [("date", VStr "2024-01-03")]); ("sum", VNull)];
         VObj [("dimensions", VObj [("date", VStr "2024-01-04")]);
               ("sum", VObj [("requests", VNum 1)])] ].

Definition answers (data : value) : fetched :=
  Responds (mkResponse true 200 "OK" (Return data)).

(** The clock: one second per reading, from 2024-01-01T00:00:00.123Z. *)
Definition clock (n : nat) : Z := (1704067200123 + 1000 * Z.of_nat n)%Z.

Definition env_of (pairs : list (string * string)) (reply : fetched) : env :=
  mkEnv (lookup pairs) volume clock (fun _ => reply).

Definition credentials : list (string * string) :=
  [ ("path", "site"); ("cloudflare-enabled", "true");
    ("cloudflare-api-token", "token"); ("cloudflare-zone-id", "zone") ].

Definition config : CloudflareConfig :=
  mkConfig (Some "token") (Some "zone") None None true.

Definition start : state (RT := Fake.runtime) := mkState 0 [].

Definition two_day_result : CloudflareAnalyticsResult :=
  mkResult "zone" (TimeRange.mk "2023-12-02" "2024-01-01") (Totals.mk 15 1500)
           [ Day.mk (VStr "2024-01-01") (VNum 10) (VNum 1000);
             Day.mk (VStr "2024-01-02") (VNum 5) (VNum 500) ].

End Example.

(** ** Reading a run *)

Section Observations.

Context {RT : Runtime}.

(** The messages passed to [core.setFailed], [core.warning], the files
    written and the directories made, in order. *)
Definition failures (t : list event) : list string :=
  flat_map (fun ev => match ev with SetFailed m => [m] | _ => [] end) t.

Definition warnings (t : list event) : list string :=
  flat_map (fun ev => match ev with Warning m => [m] | _ => [] end) t.

Definition written (t : list event) : list (string * string) :=
  flat_map (fun ev => match ev with WriteFile p c => [(p, c)] | _ => [] end) t.

Definition made (t : list event) : list string :=
  flat_map (fun ev => match ev with Mkdir p => [p] | _ => [] end) t.

(** What [run] derives from the action inputs. *)
Definition inputPath (e : env) : string := or_default (Some (inputs e "path")) ".".

Definition destination (e : env) : string := or_default (Some (inputs e "destination")) ".".

Definition green (e : env) : bool := (inputs e "green-hosting" =? "true")%string.

Definition cloudflareConfig (e : env) : CloudflareConfig :=
  mkConfig (Some (inputs e "cloudflare-api-token")) (Some (inputs e "cloudflare-zone-id"))
           (Some (inputs e "cloudflare-since")) (Some (inputs e "cloudflare-until"))
           (inputs e "cloudflare-enabled" =? "true")%string.

(** The range the fetcher resolves when it reads the clock at [now]. *)
Definition resolved_since (config : CloudflareConfig) (now : Z) : string :=
  slice0 10 (or_default (since config)
                        (slice0 10 (toISOString (now - 30 * 24 * 60 * 60 * 1000)%Z))).

Definition resolved_until (config : CloudflareConfig) (now : Z) : string :=
  slice0 10 (or_default (until config) (slice0 10 (toISOString now))).

(** The one request the fetcher issues. *)
Definition issued_request (config : CloudflareConfig) (now : Z) : request :=
  analytics_request config (resolved_since config now) (resolved_until config now).

(** The body passes the check on [data.errors]. *)
Definition accepted (data : value) : bool :=
  match get data "errors" with
  | Return errors => negb (truthy errors && gt_zero string_gt_zero (member errors "length"))
  | Throw _ => false
  end.


(** The configuration with a credential taken away. *)
Definition without_token (config : CloudflareConfig) : CloudflareConfig :=
  mkConfig None (zoneId config) (since config) (until config) (enabled config).

Definition without_zone (config : CloudflareConfig) : CloudflareConfig :=
  mkConfig (apiToken config) None (since config) (until config) (enabled config).

(** The top of every report: the header and the start of the build
    section, with the time stamp in its two places. *)
Definition report_head (stamp : string) : string :=
  "# Generated by CO2.js GitHub Action" +++ LF
  +++ "version = " +++ DQ +++ "0.3" +++ DQ +++ LF
  +++ "last_updated = " +++ DQ +++ stamp +++ DQ +++ LF
  +++ LF
  +++ "[build]" +++ LF
  +++ "date = " +++ DQ +++ stamp +++ DQ +++ LF.

(** The runtime renders dates and estimates without an opening bracket, as
    ISO-8601 stamps and JS numbers are. *)
Definition renders_plainly : Prop :=
  (forall t, has_char "[" (toISOString t) = false)
  /\ (forall g, has_char "[" (grams_to_string g) = false).




(** An analytics result with its daily entries taken away. *)
Definition without_daily (a : CloudflareAnalyticsResult) : CloudflareAnalyticsResult :=
  mkResult (zone_id a) (time_range a) (totals a) [].

(** What the run has emitted when it calls the fetcher, having measured
    [bytes]. *)
Definition estimate (e : env) (bytes : N) : grams :=
  perByte (new_co2 "1byte") (VNum (Z.of_N bytes)) (green e).




End Observations.

(** ** More of a run to read *)

Section Footprint.

Context {RT : Runtime}.

(** The requests issued, the outputs set and the lines logged, in order. *)
Definition fetches (t : list event) : list request :=
  flat_map (fun ev => match ev with Fetch r => [r] | _ => [] end) t.

Definition outputs (t : list event) : list (string * grams) :=
  flat_map (fun ev => match ev with SetOutput n v => [(n, v)] | _ => [] end) t.

Definition logs (t : list event) : list string :=
  flat_map (fun ev => match ev with Log l => [l] | _ => [] end) t.

(** The fetcher passes both of its guards. *)
Definition authorised (config : CloudflareConfig) : bool :=
  enabled config && present (apiToken config) && present (zoneId config).

(** What the fetcher may append to the trace: a request when it is
    authorised, then a warning or none. *)
Definition footprint (config : CloudflareConfig) (now : Z) (w : option string)
  : list event :=
  (if authorised config then [Fetch (issued_request config now)] else [])
  ++ match w with
     | Some message => [Warning message]
     | None => []
     end.

(** The text the handler of the fetcher reports for a thrown value. *)
Definition error_text (x : exn) : string :=
  match x with
  | JsError m => m
  | JsThrown _ => "Unknown Cloudflare error"
  end.

(** [data?.data?.viewer?.zones?.[0]?.httpRequests1dGroups], before [?? []]. *)
Definition daily_groups (data : value) : value :=
  get_opt (at_opt (get_opt (get_opt (get_opt data "data") "viewer") "zones") 0)
          "httpRequests1dGroups".

(** What an entry of a directory adds to the measure of the directory. *)
Definition contribution (en : string * Fs.node) : N :=
  if Fs.is_dir (snd en) && existsb (String.eqb (fst en)) Spec.ignored_dirs then 0%N
  else Spec.measure (snd en).

Definition sum_N (xs : list N) : N := fold_right N.add 0%N xs.


(** The lines of the analytics section before the daily blocks. *)
Definition section_lines (p : params) (a : CloudflareAnalyticsResult) : list string :=
  cloudflare_lines p [] (without_daily a).

(** The parameters with the analytics taken away. *)
Definition without_analytics (p : params) : params :=
  mkParams (bytes p) (greenHosting p) (estimatedCO2 p) None (emissions p).

End Footprint.

(** * Properties *)

(** ** Strings *)

Lemma append_empty_r (s : string) : s +++ EmptyString = s.
Proof. induction s as [|c s IH]; simpl; [reflexivity | now rewrite IH]. Qed.

Lemma append_assoc (a b c : string) : (a +++ b) +++ c = a +++ (b +++ c).
Proof. induction a as [|x a IH]; simpl; [reflexivity | now rewrite IH]. Qed.

Lemma has_char_append (c : ascii) (a b : string) :
  has_char c (a +++ b) = has_char c a || has_char c b.
Proof.
  induction a as [|x a IH]; simpl; [reflexivity|].
  rewrite IH. now rewrite orb_assoc.
Qed.

(** An occurrence of [p] is a place where [p] starts. *)
Lemma starts_with_iff (p s : string) :
  starts_with p s = true <-> exists post, s = p +++ post.
Proof.
  revert s. induction p as [|a p IH]; intros s; simpl.
  - split; [intros _; now exists s | reflexivity].
  - destruct s as [|b s].
    + split; [discriminate | intros [post H]; discriminate].
    + rewrite andb_true_iff, Ascii.eqb_eq, IH. split.
      * intros [-> [post ->]]. now exists post.
      * intros [post H]. injection H as -> ->. split; [reflexivity | now exists post].
Qed.

Lemma includes_iff (p s : string) :
  includes p s = true <-> exists pre post, s = pre +++ p +++ post.
Proof.
  induction s as [|b s IH].
  - simpl. rewrite orb_false_r, starts_with_iff. split.
    + intros [post H]. now exists EmptyString, post.
    + intros [pre [post H]]. destruct pre; [now exists post | discriminate].
  - cbn [includes]. rewrite orb_true_iff, IH, starts_with_iff. split.
    + intros [[post H] | [pre [post H]]].
      * now exists EmptyString, post.
      * exists (String b pre), post. simpl. now rewrite H.
    + intros [pre [post H]]. destruct pre as [|x pre].
      * left. now exists post.
      * right. simpl in H. injection H as _ H. now exists pre, post.
Qed.

(** A text starting with [c] cannot start inside a run without [c]. *)
Lemma includes_skip (c : ascii) (p s r : string) :
  has_char c s = false ->
  includes (String c p) (s +++ r) = includes (String c p) r.
Proof.
  induction s as [|a s IH]; intros H; [reflexivity|].
  simpl in H. apply orb_false_elim in H as [Ha Hs].
  cbn [String.append includes starts_with].
  rewrite Ascii.eqb_sym, Ha. simpl. now apply IH.
Qed.

Lemma uint_digits_plain (c : ascii) (d : Decimal.uint) :
  (nat_of_ascii c < 48 \/ 57 < nat_of_ascii c) ->
  has_char c (NilEmpty.string_of_uint d) = false.
Proof.
  intros H.
  assert (D : forall x, 48 <= nat_of_ascii x <= 57 -> Ascii.eqb x c = false).
  { intros x Hx. apply Ascii.eqb_neq. intros ->. lia. }
  induction d; cbn [NilEmpty.string_of_uint has_char]; try reflexivity;
    rewrite IHd, orb_false_r; apply D; vm_compute; lia.
Qed.

(** A number renders as digits, after a minus sign when negative. *)
Lemma number_to_string_plain (c : ascii) (z : Z) :
  (nat_of_ascii c < 45 \/ 57 < nat_of_ascii c) ->
  has_char c (number_to_string z) = false.
Proof.
  intros H. unfold number_to_string.
  assert (U : forall d, has_char c (NilZero.string_of_uint d) = false).
  { intros d. unfold NilZero.string_of_uint. destruct d;
      try (apply uint_digits_plain; lia).
    cbn [has_char]. rewrite orb_false_r. apply Ascii.eqb_neq. intros <-.
    vm_compute in H. lia. }
  destruct (Z.to_int z); cbn [NilZero.string_of_int has_char]; [apply U|].
  rewrite U, orb_false_r. apply Ascii.eqb_neq. intros <-. vm_compute in H. lia.
Qed.

(** ** The fetcher without credentials *)

Section Credentials.

Context {RT : Runtime}.


(** With a credential not present the fetcher stops at its guard. *)
Lemma fetch_unauthenticated (config : CloudflareConfig) (e : env) (s : state) :
  enabled config = true ->
  present (apiToken config) && present (zoneId config) = false ->
  fetchCloudflareAnalytics config e s
  = (Return None, mkState (ticks s) (trace s ++ [Warning missing_credentials])).
Proof.
  intros He Hp. unfold fetchCloudflareAnalytics. rewrite He.
  rewrite <- negb_andb, Hp. reflexivity.
Qed.

(** C5.  With [enabled] true and [apiToken] or [zoneId] absent, the fetcher
    raises nothing: it returns [null] (no data) and leaves one warning, the
    one about missing credentials, behind; it reads no clock and issues no
    request. *)
Theorem missing_credentials_degrade (config : CloudflareConfig) (e : env) (s : state) :
  enabled config = true ->
  apiToken config = None \/ zoneId config = None ->
  fetchCloudflareAnalytics config e s
  = (Return None, mkState (ticks s) (trace s ++ [Warning missing_credentials])).
Proof.
  intros He H. apply fetch_unauthenticated; [exact He|].
  destruct H as [H | H]; rewrite H; cbn [present andb]; [reflexivity | apply andb_false_r].
Qed.

(** C9.  An [apiToken] or [zoneId] that is the empty string is treated as
    a missing one: with [enabled] true the fetcher warns and returns [null],
    and it does exactly what it does on the configuration without that
    credential. *)
Theorem empty_credential_is_missing (config : CloudflareConfig) (e : env) (s : state) :
  enabled config = true ->
  apiToken config = Some EmptyString \/ zoneId config = Some EmptyString ->
  fetchCloudflareAnalytics config e s
  = (Return None, mkState (ticks s) (trace s ++ [Warning missing_credentials]))
  /\ (apiToken config = Some EmptyString ->
      fetchCloudflareAnalytics config e s
      = fetchCloudflareAnalytics (without_token config) e s)
  /\ (zoneId config = Some EmptyString ->
      fetchCloudflareAnalytics config e s
      = fetchCloudflareAnalytics (without_zone config) e s).
Proof.
  intros He H.
  assert (E : fetchCloudflareAnalytics config e s
              = (Return None, mkState (ticks s) (trace s ++ [Warning missing_credentials]))).
  { apply fetch_unauthenticated; [exact He|].
    destruct H as [H | H]; rewrite H; cbn [present]; [reflexivity | apply andb_false_r]. }
  split; [exact E|]. rewrite E. split; intros _; symmetry;
    apply fetch_unauthenticated; try exact He; cbn [without_token without_zone apiToken zoneId present andb];
    [reflexivity | apply andb_false_r].
Qed.

End Credentials.

(** ** Paths that cannot be measured as trees *)

Section Paths.

Context {RT : Runtime}.

Lemma calculateBytes_not_found (p : string) (e : env) (s : state) :
  Fs.exists_ (disk e) p = false ->
  calculateBytes p e s = (Throw (JsError ("Path not found: " +++ p)), s).
Proof.
  intros H. cbv [calculateBytes bind existsSync]. now rewrite H.
Qed.

(** C10.  A path that exists and resolves to neither a regular file nor a
    directory (a FIFO, a socket, a device) is measured as 0 bytes, whatever
    size its inode reports; nothing is thrown. *)
Theorem special_file_measures_zero
    (p : string) (e : env) (s : state) (kind : Fs.special) (sz : N) :
  Fs.resolve (disk e) p = Some (Fs.Special kind sz) ->
  calculateBytes p e s = (Return 0%N, s).
Proof.
  intros H. cbv [calculateBytes bind existsSync statSync Fs.exists_ Fs.stat].
  rewrite H. cbn [negb]. rewrite H. reflexivity.
Qed.

(** C2.  When the input path does not exist, [calculateBytes] throws the
    path-not-found error; the run ends normally with that message passed to
    [core.setFailed] once, and it writes no file and makes no directory. *)
Theorem missing_path_fails_the_run (e : env) (s : state) :
  Fs.exists_ (disk e) (inputPath e) = false ->
  (forall s0, calculateBytes (inputPath e) e s0
              = (Throw (JsError ("Path not found: " +++ inputPath e)), s0))
  /\ exists s',
       run e s = (Return tt, s')
       /\ failures (trace s') = failures (trace s) ++ ["Path not found: " +++ inputPath e]
       /\ written (trace s') = written (trace s)
       /\ made (trace s') = made (trace s).
Proof.
  intros H. split; [intros s0; now apply calculateBytes_not_found|].
  eexists. split.
  - cbv [run try_catch bind getInput console_log emit ret].
    fold (inputPath e). rewrite calculateBytes_not_found by exact H.
    cbv [setFailed emit]. cbn [ticks trace]. reflexivity.
  - cbn [trace]. unfold failures, written, made.
    rewrite !flat_map_app. cbn [flat_map]. rewrite !app_nil_r. auto.
Qed.

End Paths.

(** ** The composed report *)

Section Report.

Context {RT : Runtime}.

Lemma DQ_char : DQ = String (Ascii false true false false false true false false) EmptyString.
Proof. reflexivity. Qed.

Lemma LF_char : LF = String (Ascii false true false true false false false false) EmptyString.
Proof. reflexivity. Qed.

Lemma includes_plain (c : ascii) (p s : string) :
  has_char c s = false -> includes (String c p) s = false.
Proof.
  intros H. rewrite <- (append_empty_r s), includes_skip by exact H. reflexivity.
Qed.

Lemma bool_to_string_plain (b : bool) : has_char "[" (bool_to_string b) = false.
Proof. now destruct b. Qed.

Lemma join_cons (sep x y : string) (rest : list string) :
  join sep (x :: y :: rest) = x +++ sep +++ join sep (y :: rest).
Proof. reflexivity. Qed.

(** The composer reads the clock once and has no other effect. *)
Lemma buildCarbonTxt_eq (p : params) (e : env) (s : state) :
  buildCarbonTxt p e s
  = (Return (join LF (report_lines p (toISOString (clock e (ticks s))))),
     mkState (S (ticks s)) (trace s)).
Proof. reflexivity. Qed.

(** The loop over the daily entries appends one block per entry. *)
Lemma daily_loop (p : params) (ds : list Day.t) (lines : list string) :
  fold_left (daily_lines p) ds lines
  = lines ++ concat (map (Spec.daily_block (emissions p) (greenHosting p)) ds).
Proof.
  revert lines. induction ds as [|d ds IH]; intros lines; cbn [fold_left map concat].
  - now rewrite app_nil_r.
  - rewrite IH. unfold daily_lines, push, Spec.daily_block.
    rewrite <- !app_assoc. reflexivity.
Qed.

Lemma report_lines_with (p : params) (a : CloudflareAnalyticsResult) (stamp : string) :
  cloudflareAnalytics p = Some a ->
  report_lines p stamp
  = cloudflare_lines p (build_lines p stamp) (without_daily a)
    ++ concat (map (Spec.daily_block (emissions p) (greenHosting p)) (daily a)).
Proof.
  intros H. unfold report_lines. rewrite H. unfold cloudflare_lines.
  rewrite daily_loop. reflexivity.
Qed.

(** C8.  In every composed report the [last_updated] field at the top and
    the [date] field of the [build] section carry the same time stamp: the
    one reading of the clock the composer makes, at its start.  The report
    starts with [report_head] at that stamp, and lines 3 and 6 are the two
    fields. *)
Theorem report_timestamps_agree (p : params) (e : env) (s : state) :
  let stamp := toISOString (clock e (ticks s)) in
  (exists rest,
     buildCarbonTxt p e s
     = (Return (report_head stamp +++ rest), mkState (S (ticks s)) (trace s)))
  /\ nth_error (report_lines p stamp) 2 = Some ("last_updated = " +++ DQ +++ stamp +++ DQ)
  /\ nth_error (report_lines p stamp) 5 = Some ("date = " +++ DQ +++ stamp +++ DQ).
Proof.
  intros stamp. rewrite buildCarbonTxt_eq. fold stamp.
  assert (L : exists rest,
             report_lines p stamp
             = "# Generated by CO2.js GitHub Action"
               :: ("version = " +++ DQ +++ "0.3" +++ DQ)
               :: ("last_updated = " +++ DQ +++ stamp +++ DQ)
               :: EmptyString
               :: "[build]"
               :: ("date = " +++ DQ +++ stamp +++ DQ)
               :: ("total_bytes = " +++ number_to_string (Z.of_N (bytes p)))
               :: rest).
  { unfold report_lines. destruct (cloudflareAnalytics p) as [a|].
    - unfold cloudflare_lines. rewrite daily_loop.
      unfold build_lines, push. cbn [app]. eexists. reflexivity.
    - unfold build_lines, push. cbn [app]. eexists. reflexivity. }
  destruct L as [rest L]. rewrite L. split; [|split; reflexivity].
  exists (join LF (("total_bytes = " +++ number_to_string (Z.of_N (bytes p))) :: rest)).
  rewrite !join_cons. unfold report_head. rewrite !append_assoc. reflexivity.
Qed.

(** The lines of a report without analytics. *)
Lemma report_lines_without (p : params) (stamp : string) :
  cloudflareAnalytics p = None ->
  report_lines p stamp = build_lines p stamp.
Proof. intros H. unfold report_lines. now rewrite H. Qed.

Ltac scan_text :=
  repeat first
    [ progress cbn [includes starts_with String.append Ascii.eqb Bool.eqb andb orb]
    | rewrite append_assoc
    | rewrite includes_skip
        by first [ solve [auto] | apply number_to_string_plain; vm_compute; lia
                 | apply bool_to_string_plain ]
    | rewrite includes_plain by solve [auto] ].

(** C7.  With the analytics absent the report is the header and the build
    section and nothing more: its text contains neither [[cloudflare]] nor
    the header of a per-day block, whatever the byte count, the
    green-hosting flag and the estimate. *)
Theorem report_without_analytics (p : params) (e : env) (s : state) :
  renders_plainly ->
  cloudflareAnalytics p = None ->
  exists text,
    buildCarbonTxt p e s = (Return text, mkState (S (ticks s)) (trace s))
    /\ text = join LF (build_lines p (toISOString (clock e (ticks s))))
    /\ includes "[cloudflare]" text = false
    /\ includes "[[cloudflare.daily]]" text = false.
Proof.
  intros [Hstamp Hgrams] H. eexists. split; [apply buildCarbonTxt_eq|].
  rewrite report_lines_without by exact H. split; [reflexivity|].
  unfold build_lines, push. cbn [app]. rewrite !join_cons.
  cbn [join String.concat]. rewrite DQ_char, LF_char.
  split; scan_text; reflexivity.
Qed.




Lemma join_app (sep : string) (xs ys : list string) :
  xs <> [] -> ys <> [] ->
  join sep (xs ++ ys) = join sep xs +++ sep +++ join sep ys.
Proof.
  intros Hx Hy. induction xs as [|x xs IH]; [congruence|].
  destruct xs as [|x' xs].
  - destruct ys as [|y ys]; [congruence | reflexivity].
  - change ((x :: x' :: xs) ++ ys) with (x :: (x' :: xs) ++ ys).
    cbn [app]. rewrite !join_cons. cbn [app] in IH. rewrite IH by discriminate.
    now rewrite !append_assoc.
Qed.

Lemma join_blocks (em : co2 grams) (g : bool) (ds : list Day.t) (xs : list string) :
  xs <> [] ->
  join LF (xs ++ concat (map (Spec.daily_block em g) ds))
  = join LF xs +++ Spec.blocks_text em g ds.
Proof.
  revert xs. induction ds as [|d ds IH]; intros xs Hx; cbn [map concat Spec.blocks_text fold_right].
  - now rewrite app_nil_r, append_empty_r.
  - rewrite app_assoc, IH by (destruct xs; discriminate).
    rewrite join_app by (exact Hx || discriminate).
    fold (Spec.blocks_text em g ds). now rewrite !append_assoc.
Qed.




End Report.

(** ** The byte accountant *)

Section Accountant.

Context {RT : Runtime}.

Import Fs.

(** Induction on a tree, with the property at hand for every entry of a
    directory. *)
Lemma node_induction (P : node -> Prop) :
  (forall sz, P (File sz)) ->
  (forall es, Forall (fun e => P (snd e)) es -> P (Dir es)) ->
  (forall kind sz, P (Special kind sz)) ->
  forall n, P n.
Proof.
  intros HF HD HS.
  refine (fix IH (n : node) : P n :=
            match n with
            | File sz => HF sz
            | Dir es =>
                HD es ((fix entries (l : list (string * node))
                          : Forall (fun e => P (snd e)) l :=
                          match l with
                          | [] => Forall_nil _
                          | e :: rest => Forall_cons e (IH (snd e)) (entries rest)
                          end) es)
            | Special kind sz => HS kind sz
            end).
Qed.

Lemma split_on_nonempty (sep : ascii) (s : string) : split_on sep s <> [].
Proof.
  destruct s as [|c s]; cbn [split_on]; [discriminate|].
  destruct (Ascii.eqb c sep); [discriminate|].
  destruct (split_on sep s); discriminate.
Qed.

Lemma split_on_sep (sep : ascii) (a b : string) :
  split_on sep (a +++ String sep b) = split_on sep a ++ split_on sep b.
Proof.
  induction a as [|c a IH]; cbn [String.append split_on].
  - now rewrite Ascii.eqb_refl.
  - rewrite IH. destruct (Ascii.eqb c sep); [reflexivity|].
    destruct (split_on sep a) eqn:E; [now apply split_on_nonempty in E | reflexivity].
Qed.

Lemma split_on_plain (sep : ascii) (s : string) :
  has_char sep s = false -> split_on sep s = [s].
Proof.
  induction s as [|c s IH]; intros H; [reflexivity|].
  cbn [has_char] in H. apply orb_false_elim in H as [Hc Hs].
  cbn [split_on]. now rewrite Hc, (IH Hs).
Qed.

Lemma valid_name_plain (name : string) :
  Spec.valid_name name = true -> has_char "/" name = false.
Proof.
  unfold Spec.valid_name. intros H. apply andb_true_iff in H as [_ H].
  now apply negb_true_iff in H.
Qed.

(** Joining valid names with [/] and splitting again gives the names back. *)
Lemma segments_join (names : list string) :
  names <> [] ->
  forallb Spec.valid_name names = true ->
  segments (join "/" names) = names.
Proof.
  induction names as [|x names IH]; intros Hne Hv; [congruence|].
  cbn [forallb] in Hv. apply andb_true_iff in Hv as [Hx Hv].
  destruct names as [|y names].
  - apply split_on_plain, valid_name_plain, Hx.
  - rewrite join_cons. unfold segments in *.
    change ("/" +++ join "/" (y :: names)) with (String "/" (join "/" (y :: names))).
    rewrite split_on_sep, IH by (congruence || exact Hv).
    now rewrite (split_on_plain _ _ (valid_name_plain _ Hx)).
Qed.

Lemma walk_app (segs more : list string) (up : list node) (cur : node) :
  walk up cur (segs ++ more)
  = match walk up cur segs with
    | Some (up', n) => walk up' n more
    | None => None
    end.
Proof.
  revert up cur. induction segs as [|x segs IH]; intros up cur; [reflexivity|].
  cbn [app walk]. destruct cur as [sz | es | kind sz]; try reflexivity.
  destruct ((x =? EmptyString) || (x =? "."))%string; [apply IH|].
  destruct (x =? "..")%string.
  - destruct up; apply IH.
  - destruct (entry x es); [apply IH | reflexivity].
Qed.

(** Walking into a directory by a valid name is a lookup. *)
Lemma walk_name (name : string) (rest : list string) (up : list node)
    (es : list (string * node)) :
  Spec.valid_name name = true ->
  walk up (Dir es) (name :: rest)
  = match entry name es with
    | Some child => walk (Dir es :: up) child rest
    | None => None
    end.
Proof.
  unfold Spec.valid_name. rewrite !andb_true_iff, !negb_true_iff.
  intros [[[H1 H2] H3] _]. cbn [walk]. now rewrite H1, H2, H3.
Qed.

Lemma entry_in (name : string) (child : node) (es : list (string * node)) :
  Spec.distinct (map fst es) = true ->
  In (name, child) es ->
  entry name es = Some child.
Proof.
  induction es as [|[n x] es IH]; intros Hd Hin; [contradiction|].
  cbn [map fst Spec.distinct] in Hd. apply andb_true_iff in Hd as [Hn Hd].
  cbn [entry]. destruct Hin as [E | Hin].
  - injection E as -> ->. now rewrite String.eqb_refl.
  - destruct (String.eqb_spec name n) as [-> | _]; [|now apply IH].
    apply negb_true_iff in Hn. exfalso.
    assert (existsb (String.eqb n) (map fst es) = true); [|congruence].
    apply existsb_exists. exists n. split; [|apply String.eqb_refl].
    apply in_map_iff. now exists (n, child).
Qed.

(** In a well-formed tree every regular file is reached by walking its
    names, which are valid; under a directory there is at least one. *)
Lemma regular_files_walk (n : node) :
  Spec.wf n = true ->
  forall rel sz up,
    In (rel, sz) (Spec.regular_files n) ->
    (exists up', walk up n rel = Some (up', File sz))
    /\ forallb Spec.valid_name rel = true
    /\ (is_dir n = true -> rel <> []).
Proof.
  induction n as [sz0 | es IH | kind sz0] using node_induction;
    intros Hwf rel sz up Hin.
  - destruct Hin as [E | []]. injection E as <- <-.
    split; [now exists up|]. split; [reflexivity | discriminate].
  - cbn [Spec.wf] in Hwf. apply andb_true_iff in Hwf as [Hd Hall].
    cbn [Spec.regular_files] in Hin. apply in_flat_map in Hin as [[name child] [He Hin]].
    apply in_map_iff in Hin as [[rel' sz'] [E Hin]]. cbn [fst snd] in E, Hin.
    injection E as <- <-.
    rewrite forallb_forall in Hall. specialize (Hall _ He). cbn [fst snd] in Hall.
    apply andb_true_iff in Hall as [Hname Hchild].
    rewrite Forall_forall in IH. specialize (IH _ He Hchild rel' sz' (Dir es :: up) Hin).
    destruct IH as [[up' Hw] [Hv _]].
    split; [|split].
    + exists up'. now rewrite walk_name, (entry_in _ _ _ Hd He).
    + cbn [forallb]. now rewrite Hname.
    + discriminate.
  - contradiction.
Qed.

Lemma kept_under (name : string) (fs : list (list string * N)) :
  (forall f, In f fs -> fst f <> []) ->
  map fst (filter (fun f => negb (Spec.excluded (fst f)))
                  (map (fun f => (name :: fst f, snd f)) fs))
  = if existsb (String.eqb name) Spec.ignored_dirs then []
    else map (cons name) (map fst (filter (fun f => negb (Spec.excluded (fst f))) fs)).
Proof.
  induction fs as [|[rel sz] fs IH]; intros Hne.
  - now destruct (existsb _ _).
  - assert (Hrel : rel <> []) by (apply (Hne (rel, sz)); now left).
    assert (IH' := IH (fun f Hf => Hne f (or_intror Hf))). clear IH.
    cbn [map filter fst snd].
    assert (E : Spec.excluded (name :: rel)
                = existsb (String.eqb name) Spec.ignored_dirs || Spec.excluded rel).
    { unfold Spec.excluded, Spec.dir_segments.
      destruct rel as [|x rel]; [congruence | reflexivity]. }
    rewrite E, negb_orb.
    destruct (existsb (String.eqb name) Spec.ignored_dirs); cbn [negb andb].
    + exact IH'.
    + destruct (negb (Spec.excluded rel)); cbn [map fst]; now rewrite IH'.
Qed.

(** Pruning the ignored directories on the way down finds the files that
    filtering all regular files by their path keeps, in the same order. *)
Lemma matches_kept (n : node) :
  matches Spec.ignored_dirs n = map fst (Spec.kept n).
Proof.
  unfold Spec.kept.
  induction n as [sz | es IH | kind sz] using node_induction; try reflexivity.
  cbn [matches Spec.regular_files].
  induction es as [|[name child] es IHes]; [reflexivity|].
  inversion IH as [|? ? Hchild Hrest]; subst. cbn [flat_map fst snd] in *.
  rewrite filter_app, map_app, <- (IHes Hrest). f_equal. clear IHes Hrest IH.
  destruct child as [sz | es' | kind sz]; try reflexivity.
  cbn [is_dir andb]. rewrite Hchild, kept_under; [reflexivity|].
  intros f Hf. cbn [Spec.regular_files] in Hf.
  apply in_flat_map in Hf as [e' [_ Hf]]. apply in_map_iff in Hf as [f' [<- _]].
  discriminate.
Qed.

(** A file found under a directory is found again through the path [glob]
    returns for it. *)
Lemma stat_under (d : volume) (p : string) (es : list (string * node))
    (rel : list string) (sz : N) :
  resolve d p = Some (Dir es) ->
  Spec.wf (Dir es) = true ->
  In (rel, sz) (Spec.regular_files (Dir es)) ->
  stat d (p +++ "/" +++ join "/" rel) = Return (mkStats true false sz).
Proof.
  intros Hres Hwf Hin. unfold stat, resolve in *.
  destruct p as [|c p]; [discriminate|]. cbn [String.eqb] in Hres.
  destruct (walk [] (root d) (route d (String c p))) as [[up n]|] eqn:Hw; [|discriminate].
  cbn [option_map snd] in Hres. injection Hres as ->.
  destruct (regular_files_walk _ Hwf rel sz up Hin) as [[up' Hrel] [Hv Hne]].
  cbn [String.append String.eqb].
  assert (R : route d (String c (p +++ String "/" (join "/" rel)))
              = route d (String c p) ++ rel).
  { unfold route, segments.
    change (String c (p +++ String "/" (join "/" rel)))
      with (String c p +++ String "/" (join "/" rel)).
    rewrite split_on_sep.
    change (split_on "/" (join "/" rel)) with (segments (join "/" rel)).
    rewrite segments_join by (auto using Hne). 
    rewrite app_assoc. reflexivity. }
  rewrite R, walk_app, Hw, Hrel. reflexivity.
Qed.

Lemma bind_existsSync {A} (p : string) (k : bool -> M A) (e : env) (s : state) :
  bind (existsSync p) k e s = k (exists_ (disk e) p) e s.
Proof. reflexivity. Qed.

Lemma bind_statSync {A} (p : string) (k : Stats -> M A) (e : env) (s : state) (st : Stats) :
  stat (disk e) p = Return st ->
  bind (statSync p) k e s = k st e s.
Proof. intros H. unfold bind, statSync. now rewrite H. Qed.

Lemma bind_glob {A} (pattern : string) (options : GlobOptions) (k : list string -> M A)
    (e : env) (s : state) :
  bind (glob pattern options) k e s = k (glob_files (disk e) pattern options) e s.
Proof. reflexivity. Qed.

(** The loop over the files adds up their sizes. *)
Lemma sizes_loop (name : list string -> string) (fs : list (list string * N))
    (e : env) (s : state) (total : N) :
  (forall f, In f fs -> stat (disk e) (name (fst f)) = Return (mkStats true false (snd f))) ->
  for_of (map name (map fst fs))
         (fun file totalBytes =>
            bind (statSync file) (fun fileStats => ret (totalBytes + size fileStats)%N))
         total e s
  = (Return (total + Spec.sum_sizes fs)%N, s).
Proof.
  revert total. induction fs as [|f fs IH]; intros total H.
  - cbn. now rewrite N.add_0_r.
  - cbn [map for_of]. unfold bind at 1.
    rewrite (bind_statSync _ _ _ _ _ (H f (or_introl eq_refl))).
    cbn [ret size]. rewrite IH by (intros f' Hf; apply H; now right).
    cbn [Spec.sum_sizes fold_right]. now rewrite N.add_assoc.
Qed.

(** On a path that resolves, [calculateBytes] returns what the
    specification measures, and touches nothing. *)
Lemma calculateBytes_resolved (p : string) (e : env) (s : state) (n : node) :
  resolve (disk e) p = Some n ->
  Spec.wf n = true ->
  calculateBytes p e s = (Return (Spec.measure n), s).
Proof.
  intros Hres Hwf. unfold calculateBytes.
  rewrite bind_existsSync. unfold exists_. rewrite Hres. cbn [negb].
  rewrite (bind_statSync _ _ _ _ (stat_of n)) by (unfold stat; now rewrite Hres).
  destruct n as [sz | es | kind sz]; try reflexivity.
  cbn [stat_of isFile isDirectory]. unfold bind at 1. rewrite bind_glob.
  unfold glob_files. cbn [cwd ignore]. rewrite Hres.
  change (map ignored_dir ["**/.git/**"; "**/node_modules/**"]) with Spec.ignored_dirs.
  rewrite matches_kept.
  rewrite (sizes_loop (fun rel => p +++ "/" +++ join "/" rel)).
  - reflexivity.
  - intros [rel sz] Hf. apply filter_In in Hf as [Hf _].
    now apply stat_under with (es := es).
Qed.

Lemma entry_some (name : string) (child : node) (es : list (string * node)) :
  entry name es = Some child -> In (name, child) es.
Proof.
  induction es as [|[n x] es IH]; cbn [entry]; [discriminate|].
  destruct (String.eqb_spec name n) as [-> | _].
  - intros E. injection E as ->. now left.
  - intros E. right. now apply IH.
Qed.

(** Conversely, a regular file reached by walking valid names is listed. *)
Lemma walk_regular_files (n : node) :
  forall rel sz up up',
    forallb Spec.valid_name rel = true ->
    walk up n rel = Some (up', File sz) ->
    In (rel, sz) (Spec.regular_files n).
Proof.
  induction n as [sz0 | es IH | kind sz0] using node_induction;
    intros rel sz up up' Hv Hw.
  - destruct rel; cbn [walk] in Hw; [|discriminate].
    injection Hw as _ ->. now left.
  - destruct rel as [|name rel]; [cbn [walk] in Hw; discriminate|].
    cbn [forallb] in Hv. apply andb_true_iff in Hv as [Hname Hv].
    rewrite walk_name in Hw by exact Hname.
    destruct (entry name es) as [child|] eqn:E; [|discriminate].
    apply entry_some in E. rewrite Forall_forall in IH.
    cbn [Spec.regular_files]. apply in_flat_map. exists (name, child). split; [exact E|].
    apply in_map_iff. exists (rel, sz). split; [reflexivity|].
    exact (IH _ E rel sz _ _ Hv Hw).
  - destruct rel; cbn [walk] in Hw; discriminate.
Qed.

(** C3.  A path that resolves to a regular file is measured as that file's
    size; one that resolves to a directory, as the sum of the sizes of the
    regular files under it at any depth whose path has no directory segment
    named [.git] or [node_modules]; an empty directory measures 0.  The
    regular files under a node are those reached from it by walking valid
    names.  The tree under the path is well formed: a directory lists valid
    names, each once. *)
Theorem calculateBytes_measures (p : string) (e : env) (s : state) (n : node) :
  resolve (disk e) p = Some n ->
  Spec.wf n = true ->
  calculateBytes p e s = (Return (Spec.measure n), s)
  /\ (forall sz, n = File sz -> Spec.measure n = sz)
  /\ (forall es, n = Dir es ->
      Spec.measure n
      = Spec.sum_sizes (filter (fun f => negb (Spec.excluded (fst f)))
                               (Spec.regular_files n)))
  /\ Spec.measure (Dir []) = 0%N
  /\ (forall rel sz,
        forallb Spec.valid_name rel = true ->
        (In (rel, sz) (Spec.regular_files n)
         <-> exists up', walk [] n rel = Some (up', File sz))).
Proof.
  intros Hres Hwf. split; [now apply calculateBytes_resolved|].
  split; [now intros sz ->|]. split; [now intros es ->|]. split; [reflexivity|].
  intros rel sz Hv. split.
  - intros Hin. now destruct (regular_files_walk n Hwf rel sz [] Hin) as [H _].
  - intros [up' Hw]. now apply walk_regular_files with (up := []) (up' := up').
Qed.

End Accountant.

(** ** The analytics fetcher *)

Section Fetcher.

Context {RT : Runtime}.

(** The loop over the groups computes the totals and the breakdown of the
    specification. *)
Lemma tally_loop (groups : list value) (acc : tally) :
  fold_left tally_group groups acc
  = mkTally (totalRequests acc + Spec.sum_of (map Spec.requests_of groups))
            (totalBytes acc + Spec.sum_of (map Spec.bytes_of groups))
            (days acc ++ Spec.breakdown groups).
Proof.
  revert acc. induction groups as [|g groups IH]; intros [r b ds].
  - cbn. now rewrite !Z.add_0_r, app_nil_r.
  - cbn [fold_left]. rewrite IH. unfold tally_group.
    cbn [totalRequests totalBytes days map Spec.sum_of fold_right].
    fold (Spec.sum_of (map Spec.requests_of groups)).
    fold (Spec.sum_of (map Spec.bytes_of groups)).
    change (coalesce (get_opt (get_opt g "sum") "requests") (VNum 0))
      with (Spec.requests_of g).
    change (coalesce (get_opt (get_opt g "sum") "bytes") (VNum 0))
      with (Spec.bytes_of g).
    change (get_opt (get_opt g "dimensions") "date") with (Spec.date_of g).
    f_equal.
    + destruct (Spec.requests_of g); cbn [is_number plus Spec.amount]; lia.
    + destruct (Spec.bytes_of g); cbn [is_number plus Spec.amount]; lia.
    + unfold Spec.breakdown. cbn [filter].
      destruct (truthy (Spec.date_of g)); cbn [map]; [now rewrite <- app_assoc | reflexivity].
Qed.







End Fetcher.

(** ** The orchestrator *)

Section Orchestrator.

Context {RT : Runtime}.



End Orchestrator.

(** ** The fetcher, on every input *)

Section FetcherFootprint.

Context {RT : Runtime}.

Ltac step_fetcher :=
  cbv [bind new_Date try_catch fetch lift warning emit ret]; cbn [ticks trace].

(** Whatever it is given, the fetcher returns, having issued one request
    when it is authorised and none otherwise, and left at most one warning;
    it returns data only without a warning. *)
Lemma fetch_footprint (config : CloudflareConfig) (e : env) (s : state) :
  exists result w,
    fetchCloudflareAnalytics config e s
    = (Return result,
       mkState (if authorised config then S (ticks s) else ticks s)
               (trace s ++ footprint config (clock e (ticks s)) w))
    /\ (result <> None -> authorised config = true /\ w = None)
    /\ (enabled config = false -> w = None)
    /\ (enabled config = true -> authorised config = false ->
        w = Some missing_credentials).
Proof.
  unfold fetchCloudflareAnalytics, footprint, authorised.
  destruct (enabled config) eqn:He; cbn [negb andb].
  2:{ exists None, None. rewrite app_nil_r. destruct s. cbn [ticks trace].
      repeat split; congruence. }
  destruct (present (apiToken config)) eqn:Ht; cbn [negb orb andb].
  2:{ exists None, (Some missing_credentials). repeat split; congruence. }
  destruct (present (zoneId config)) eqn:Hz; cbn [negb orb andb].
  2:{ exists None, (Some missing_credentials). repeat split; congruence. }
  step_fetcher. unfold issued_request, resolved_since, resolved_until.
  destruct (network e _) as [r | x].
  2:{ eexists None, (Some _). cbn [ticks trace]. rewrite <- app_assoc.
      repeat split; congruence. }
  destruct (ok r); cbn [negb].
  2:{ eexists None, (Some _). cbn [ticks trace]. rewrite <- app_assoc.
      repeat split; congruence. }
  destruct (json r) as [data | x].
  2:{ eexists None, (Some _). cbn [ticks trace]. rewrite <- app_assoc.
      repeat split; congruence. }
  destruct (get data "errors") as [errors | x].
  2:{ eexists None, (Some _). cbn [ticks trace]. rewrite <- app_assoc.
      repeat split; congruence. }
  destruct (truthy errors && gt_zero string_gt_zero (member errors "length")).
  { eexists None, (Some _). cbn [ticks trace]. rewrite <- app_assoc.
    repeat split; congruence. }
  destruct (iterate "groups" (groups_of data)) as [groups | x].
  2:{ eexists None, (Some _). cbn [ticks trace]. rewrite <- app_assoc.
      repeat split; congruence. }
  eexists (Some _), None. cbn [ticks trace app]. repeat split; congruence.
Qed.

(** A result comes only from the one path through the fetcher that ends in
    success. *)
Lemma fetch_some_inv (config : CloudflareConfig) (e : env) (s s' : state)
    (result : CloudflareAnalyticsResult) :
  fetchCloudflareAnalytics config e s = (Return (Some result), s') ->
  let now := clock e (ticks s) in
  exists r data groups,
    authorised config = true
    /\ network e (issued_request config now) = Responds r
    /\ ok r = true
    /\ json r = Return data
    /\ accepted data = true
    /\ iterate "groups" (groups_of data) = Return groups
    /\ result = mkResult (text (zoneId config))
                         (TimeRange.mk (resolved_since config now)
                                       (resolved_until config now))
                         (Totals.mk (Spec.sum_of (map Spec.requests_of groups))
                                    (Spec.sum_of (map Spec.bytes_of groups)))
                         (Spec.breakdown groups)
    /\ s' = mkState (S (ticks s)) (trace s ++ [Fetch (issued_request config now)]).
Proof.
  unfold fetchCloudflareAnalytics, authorised, accepted.
  destruct (enabled config); cbn [negb andb]; [|discriminate].
  destruct (present (apiToken config)); cbn [negb orb andb]; [|discriminate].
  destruct (present (zoneId config)); cbn [negb orb andb]; [|discriminate].
  step_fetcher. unfold issued_request, resolved_since, resolved_until.
  destruct (network e _) as [r | x] eqn:Hnet; [|discriminate].
  destruct (ok r) eqn:Hok; cbn [negb]; [|discriminate].
  destruct (json r) as [data | x] eqn:Hjson; [|discriminate].
  destruct (get data "errors") as [errors | x] eqn:Herr; [|discriminate].
  destruct (truthy errors && gt_zero string_gt_zero (member errors "length")) eqn:Hacc;
    [discriminate|].
  destruct (iterate "groups" (groups_of data)) as [groups | x] eqn:Hiter; [|discriminate].
  rewrite tally_loop. cbn [totalRequests totalBytes days app Z.add].
  intros H. injection H as <- <-.
  exists r, data, groups. rewrite Herr, Hacc.
  repeat split; solve [reflexivity | assumption].
Qed.

(** The converse: the success path returns the normalized result. *)
Lemma fetch_success (config : CloudflareConfig) (e : env) (s : state)
    (r : response) (data : value) (groups : list value) :
  authorised config = true ->
  network e (issued_request config (clock e (ticks s))) = Responds r ->
  ok r = true ->
  json r = Return data ->
  accepted data = true ->
  iterate "groups" (groups_of data) = Return groups ->
  fetchCloudflareAnalytics config e s
  = (Return (Some (mkResult (text (zoneId config))
                            (TimeRange.mk (resolved_since config (clock e (ticks s)))
                                          (resolved_until config (clock e (ticks s))))
                            (Totals.mk (Spec.sum_of (map Spec.requests_of groups))
                                       (Spec.sum_of (map Spec.bytes_of groups)))
                            (Spec.breakdown groups))),
     mkState (S (ticks s))
             (trace s ++ [Fetch (issued_request config (clock e (ticks s)))])).
Proof.
  unfold authorised. rewrite !andb_true_iff. intros [[He Ht] Hz] Hnet Hok Hjson Hacc Hiter.
  unfold fetchCloudflareAnalytics. rewrite He, Ht, Hz. cbn [negb orb].
  step_fetcher. unfold issued_request, resolved_since, resolved_until, accepted in *.
  rewrite Hnet, Hok, Hjson. cbn [negb].
  destruct (get data "errors") as [errors | x]; [|discriminate].
  apply negb_true_iff in Hacc. rewrite Hacc, Hiter, tally_loop.
  cbn [totalRequests totalBytes days app Z.add]. reflexivity.
Qed.

End FetcherFootprint.

(** ** What the fetcher leaves behind, and what it reports *)

Section FetcherMore.

Context {RT : Runtime}.

Ltac split_views :=
  unfold fetches, warnings, failures, written, made, outputs, logs;
  rewrite ?flat_map_app; cbn [flat_map app]; rewrite ?app_nil_r.

(** X1.  On every input the fetcher returns, and what it leaves behind is at
    most one request and at most one warning: it issues its one request
    exactly when it is enabled with both credentials present, reads the
    clock only then, never fails the run, writes, sets an output or logs,
    and when it returns data it has warned of nothing. *)
Theorem fetcher_leaves_one_request_at_most
    (config : CloudflareConfig) (e : env) (s : state) :
  exists result s',
    fetchCloudflareAnalytics config e s = (Return result, s')
    /\ fetches (trace s')
       = fetches (trace s)
         ++ (if authorised config then [issued_request config (clock e (ticks s))] else [])
    /\ ticks s' = (if authorised config then S (ticks s) else ticks s)
    /\ List.length (warnings (trace s')) <= S (List.length (warnings (trace s)))
    /\ (result <> None -> warnings (trace s') = warnings (trace s))
    /\ failures (trace s') = failures (trace s)
    /\ written (trace s') = written (trace s)
    /\ made (trace s') = made (trace s)
    /\ outputs (trace s') = outputs (trace s)
    /\ logs (trace s') = logs (trace s).
Proof.
  destruct (fetch_footprint config e s) as [result [w [H [Hsome _]]]].
  exists result. eexists. split; [exact H|]. cbn [ticks trace]. unfold footprint.
  assert (Hw : result <> None -> w = None) by (intros Hr; now destruct (Hsome Hr)).
  destruct (authorised config), w as [m|]; split_views;
    repeat split; try reflexivity; try (rewrite ?length_app; cbn [List.length]; lia);
    intros Hr; specialize (Hw Hr); discriminate.
Qed.

Lemma slice0_length (n : nat) (s : string) : String.length (slice0 n s) <= n.
Proof.
  unfold slice0. revert s. induction n as [|n IH]; intros [|c s]; cbn; try lia.
  specialize (IH s). lia.
Qed.

Lemma slice0_short (n : nat) (s : string) : String.length s <= n -> slice0 n s = s.
Proof.
  unfold slice0. revert s. induction n as [|n IH]; intros [|c s] H; cbn in *;
    try reflexivity; try lia.
  rewrite IH by lia. reflexivity.
Qed.

Lemma slice0_prefix (a b : string) : slice0 (String.length a) (a +++ b) = a.
Proof.
  unfold slice0. induction a as [|c a IH]; cbn.
  - now destruct b.
  - now rewrite IH.
Qed.

Lemma or_default_absent (o : option string) (d : string) :
  present o = false -> or_default o d = d.
Proof. intros H. unfold or_default. now rewrite H. Qed.

Lemma or_default_present (v d : string) :
  v <> EmptyString -> or_default (Some v) d = v.
Proof.
  intros H. unfold or_default, present.
  destruct (String.eqb_spec v EmptyString); [contradiction | reflexivity].
Qed.

(** X2.  The range the fetcher asks for is cut to calendar days: both ends
    are at most 10 characters long.  A [since] or [until] that is given and
    not empty is used, cut to its first 10 characters (a day is kept as it
    is, a longer ISO stamp loses its time); one that is absent or empty
    falls back to the day of the clock reading 30 days back, or of the
    reading itself. *)
Theorem range_is_cut_to_days (config : CloudflareConfig) (now : Z) :
  String.length (resolved_since config now) <= 10
  /\ String.length (resolved_until config now) <= 10
  /\ (forall day rest,
        String.length day = 10 ->
        (since config = Some (day +++ rest) -> resolved_since config now = day)
        /\ (until config = Some (day +++ rest) -> resolved_until config now = day))
  /\ (forall given,
        given <> EmptyString -> String.length given <= 10 ->
        (since config = Some given -> resolved_since config now = given)
        /\ (until config = Some given -> resolved_until config now = given))
  /\ (present (since config) = false ->
      resolved_since config now = slice0 10 (toISOString (now - 2592000000)%Z))
  /\ (present (until config) = false ->
      resolved_until config now = slice0 10 (toISOString now)).
Proof.
  unfold resolved_since, resolved_until.
  split; [apply slice0_length|]. split; [apply slice0_length|].
  split; [|split; [|split]].
  - intros day rest Hlen.
    assert (Hne : day +++ rest <> EmptyString) by (destruct day; [discriminate Hlen | discriminate]).
    split; intros ->; rewrite or_default_present by exact Hne;
      rewrite <- Hlen; apply slice0_prefix.
  - intros given Hne Hlen.
    split; intros ->; rewrite or_default_present by exact Hne; now apply slice0_short.
  - intros H. rewrite or_default_absent by exact H.
    apply slice0_short, slice0_length.
  - intros H. rewrite or_default_absent by exact H.
    apply slice0_short, slice0_length.
Qed.

(** X3.  A result is returned only after exactly one request and without
    a warning, and it reports what was asked: its [zone_id] is the
    configured zone, which is not empty, and its [time_range] is the range
    carried by the request. *)
Theorem result_reports_the_request
    (config : CloudflareConfig) (e : env) (s s' : state)
    (result : CloudflareAnalyticsResult) :
  fetchCloudflareAnalytics config e s = (Return (Some result), s') ->
  zoneId config = Some (zone_id result)
  /\ zone_id result <> EmptyString
  /\ fetches (trace s')
     = fetches (trace s)
       ++ [analytics_request config (TimeRange.since (time_range result))
                             (TimeRange.until (time_range result))]
  /\ warnings (trace s') = warnings (trace s)
  /\ ticks s' = S (ticks s)
  /\ String.length (TimeRange.since (time_range result)) <= 10
  /\ String.length (TimeRange.until (time_range result)) <= 10.
Proof.
  intros H. apply fetch_some_inv in H. cbv zeta in H.
  destruct H as [r [data [groups [Ha [_ [_ [_ [_ [_ [-> ->]]]]]]]]]].
  cbn [zone_id time_range TimeRange.since TimeRange.until ticks trace].
  unfold authorised in Ha. rewrite !andb_true_iff in Ha. destruct Ha as [[_ _] Hz].
  destruct (zoneId config) as [z|]; [|discriminate]. cbn [present text] in *.
  split; [reflexivity|]. split.
  { intros ->. discriminate. }
  split_views. unfold resolved_since, resolved_until.
  repeat split; try reflexivity; apply slice0_length.
Qed.

(** X4.  What the one warning of a failed call says.  A thrown [Error]
    is reported by its message and any other thrown value as an unknown
    error, whether the call itself or the reading of the body threw; a
    status that is not a success is reported by its code and text, and the
    body is not looked at; a list of API errors is reported serialized; a
    body that is [null] is reported by the TypeError of reading its
    [errors]. *)
Theorem failed_calls_say_why (config : CloudflareConfig) (e : env) (s : state) :
  authorised config = true ->
  let request := issued_request config (clock e (ticks s)) in
  let warned message :=
    fetchCloudflareAnalytics config e s
    = (Return None,
       mkState (S (ticks s)) (trace s ++ [Fetch request; Warning message])) in
  (forall x, network e request = Rejects x ->
             warned ("Failed to fetch Cloudflare analytics: " +++ error_text x))
  /\ (forall r, network e request = Responds r -> ok r = false ->
                warned ("Cloudflare API request failed: " +++ number_to_string (status r)
                        +++ " " +++ statusText r))
  /\ (forall r x, network e request = Responds r -> ok r = true -> json r = Throw x ->
                  warned ("Failed to fetch Cloudflare analytics: " +++ error_text x))
  /\ (forall r data errors,
        network e request = Responds r -> ok r = true -> json r = Return data ->
        get data "errors" = Return errors ->
        truthy errors && gt_zero string_gt_zero (member errors "length") = true ->
        warned ("Cloudflare API returned errors: " +++ JSON_stringify errors))
  /\ (forall r, network e request = Responds r -> ok r = true -> json r = Return VNull ->
                warned ("Failed to fetch Cloudflare analytics: "
                        +++ "Cannot read properties of null (reading 'errors')"))
  /\ (forall r data x,
        network e request = Responds r -> ok r = true -> json r = Return data ->
        accepted data = true -> iterate "groups" (groups_of data) = Throw x ->
        warned ("Failed to fetch Cloudflare analytics: " +++ error_text x)).
Proof.
  unfold authorised. rewrite !andb_true_iff. intros [[He Ht] Hz]. cbv zeta.
  unfold issued_request, resolved_since, resolved_until, error_text, accepted.
  assert (Enter : negb (enabled config) = false
                  /\ negb (present (apiToken config)) || negb (present (zoneId config))
                     = false)
    by (now rewrite He, Ht, Hz).
  destruct Enter as [E1 E2].
  repeat split.
  - intros x Hnet. unfold fetchCloudflareAnalytics. rewrite E1, E2.
    cbv [bind new_Date try_catch fetch lift warning emit ret]. cbn [ticks trace].
    rewrite Hnet. cbn [ticks trace]. now rewrite <- app_assoc.
  - intros r Hnet Hok. unfold fetchCloudflareAnalytics. rewrite E1, E2.
    cbv [bind new_Date try_catch fetch lift warning emit ret]. cbn [ticks trace].
    rewrite Hnet, Hok. cbn [negb ticks trace]. now rewrite <- app_assoc.
  - intros r x Hnet Hok Hj. unfold fetchCloudflareAnalytics. rewrite E1, E2.
    cbv [bind new_Date try_catch fetch lift warning emit ret]. cbn [ticks trace].
    rewrite Hnet, Hok, Hj. cbn [negb ticks trace]. now rewrite <- app_assoc.
  - intros r data errors Hnet Hok Hj Herr Hbad. unfold fetchCloudflareAnalytics.
    rewrite E1, E2.
    cbv [bind new_Date try_catch fetch lift warning emit ret]. cbn [ticks trace].
    rewrite Hnet, Hok, Hj, Herr, Hbad. cbn [negb ticks trace]. now rewrite <- app_assoc.
  - intros r Hnet Hok Hj. unfold fetchCloudflareAnalytics. rewrite E1, E2.
    cbv [bind new_Date try_catch fetch lift warning emit ret]. cbn [ticks trace].
    rewrite Hnet, Hok, Hj. cbn [negb get nullish ticks trace].
    now rewrite <- app_assoc.
  - intros r data x Hnet Hok Hj Hacc Hiter. unfold fetchCloudflareAnalytics.
    rewrite E1, E2.
    cbv [bind new_Date try_catch fetch lift warning emit ret]. cbn [ticks trace].
    rewrite Hnet, Hok, Hj. cbn [negb].
    destruct (get data "errors") as [errors | y]; [|discriminate].
    apply negb_true_iff in Hacc. rewrite Hacc, Hiter. cbn [ticks trace].
    now rewrite <- app_assoc.
Qed.

End FetcherMore.

(** ** What a returned result holds *)

Section Normalized.

Context {RT : Runtime}.

Lemma accepted_without_errors (data : value) :
  nullish data = false ->
  truthy (member data "errors") = false \/ member data "errors" = VArr [] ->
  accepted data = true.
Proof.
  intros Hn H. unfold accepted, get. rewrite Hn.
  destruct H as [H | H]; rewrite H; reflexivity.
Qed.

(** X5.  A body that parses to anything but [null], lists no errors (the
    field is absent, null or an empty array) and holds no daily groups at
    the end of the path to them yields analytics all the same: a result
    with totals 0 and an empty daily breakdown, not [null], and no
    warning. *)
Theorem bare_body_gives_empty_analytics
    (config : CloudflareConfig) (e : env) (s : state) (r : response) (data : value) :
  authorised config = true ->
  network e (issued_request config (clock e (ticks s))) = Responds r ->
  ok r = true ->
  json r = Return data ->
  nullish data = false ->
  truthy (member data "errors") = false \/ member data "errors" = VArr [] ->
  nullish (daily_groups data) = true ->
  fetchCloudflareAnalytics config e s
  = (Return (Some (mkResult (text (zoneId config))
                            (TimeRange.mk (resolved_since config (clock e (ticks s)))
                                          (resolved_until config (clock e (ticks s))))
                            (Totals.mk 0 0)
                            [])),
     mkState (S (ticks s))
             (trace s ++ [Fetch (issued_request config (clock e (ticks s)))])).
Proof.
  intros Ha Hnet Hok Hj Hn Herr Hg.
  apply (fetch_success config e s r data [] Ha Hnet Hok Hj).
  - now apply accepted_without_errors.
  - unfold groups_of, coalesce. fold (daily_groups data). now rewrite Hg.
Qed.

Lemma defaulted_not_nullish (v : value) : nullish (Spec.defaulted v) = false.
Proof. unfold Spec.defaulted. destruct (nullish v) eqn:E; [reflexivity | exact E]. Qed.

Lemma breakdown_length (groups : list value) :
  List.length (Spec.breakdown groups) <= List.length groups.
Proof. unfold Spec.breakdown. rewrite length_map. apply filter_length_le. Qed.

(** X6.  In every returned result each daily entry has a date that is
    present (truthy) and requests and bytes that are neither [null] nor
    [undefined]; the entries are those of the dated groups of the response,
    in the order of the response, so there are no more of them than
    groups. *)
Theorem daily_entries_are_dated
    (config : CloudflareConfig) (e : env) (s s' : state)
    (result : CloudflareAnalyticsResult) :
  fetchCloudflareAnalytics config e s = (Return (Some result), s') ->
  Forall (fun d => truthy (Day.date d) = true
                   /\ nullish (Day.requests d) = false
                   /\ nullish (Day.bytes d) = false)
         (daily result)
  /\ exists r data groups,
       network e (issued_request config (clock e (ticks s))) = Responds r
       /\ json r = Return data
       /\ iterate "groups" (groups_of data) = Return groups
       /\ daily result
          = map (fun g => Day.mk (Spec.date_of g) (Spec.requests_of g) (Spec.bytes_of g))
                (filter (fun g => truthy (Spec.date_of g)) groups)
       /\ List.length (daily result) <= List.length groups.
Proof.
  intros H. apply fetch_some_inv in H. cbv zeta in H.
  destruct H as [r [data [groups [_ [Hnet [_ [Hj [_ [Hiter [-> _]]]]]]]]]].
  cbn [daily]. split.
  - unfold Spec.breakdown. apply Forall_forall. intros d Hd.
    apply in_map_iff in Hd as [g [<- Hg]]. apply filter_In in Hg as [_ Hg].
    cbn [Day.date Day.requests Day.bytes]. split; [exact Hg|].
    split; apply defaulted_not_nullish.
  - exists r, data, groups. repeat split; try assumption. apply breakdown_length.
Qed.

Lemma sum_of_app (a b : list value) :
  Spec.sum_of (a ++ b) = (Spec.sum_of a + Spec.sum_of b)%Z.
Proof.
  unfold Spec.sum_of. induction a as [|x a IH]; cbn [app fold_right]; [reflexivity|].
  rewrite IH. lia.
Qed.



End Normalized.

(** ** The analytics section of the report *)

Section AnalyticsSection.

Context {RT : Runtime}.

(** A line of an array occurs in the array joined. *)
Lemma includes_join (sep line : string) (lines : list string) :
  In line lines -> includes line (join sep lines) = true.
Proof.
  intros H. apply in_split in H as [before [after ->]]. apply includes_iff.
  destruct before as [|b before], after as [|a after].
  - exists EmptyString, EmptyString. cbn. now rewrite append_empty_r.
  - exists EmptyString, (sep +++ join sep (a :: after)). reflexivity.
  - exists (join sep (b :: before) +++ sep), EmptyString.
    rewrite join_app by discriminate. cbn [join String.concat].
    now rewrite append_empty_r, append_assoc.
  - exists (join sep (b :: before) +++ sep), (sep +++ join sep (a :: after)).
    rewrite join_app by discriminate. rewrite join_cons. now rewrite !append_assoc.
Qed.

Lemma cloudflare_lines_app (p : params) (lines : list string)
    (a : CloudflareAnalyticsResult) :
  cloudflare_lines p lines (without_daily a) = lines ++ section_lines p a.
Proof.
  unfold section_lines, cloudflare_lines, push. cbn [fold_left daily without_daily].
  now rewrite <- !app_assoc.
Qed.

(** The lines of a report with analytics: the build section, the analytics
    section, the daily blocks. *)
Lemma report_lines_split (p : params) (a : CloudflareAnalyticsResult) (stamp : string) :
  cloudflareAnalytics p = Some a ->
  report_lines p stamp
  = build_lines p stamp ++ section_lines p a
    ++ concat (map (Spec.daily_block (emissions p) (greenHosting p)) (daily a)).
Proof.
  intros H. rewrite (report_lines_with p a stamp H), cloudflare_lines_app.
  now rewrite <- app_assoc.
Qed.

Ltac scan_plain :=
  repeat first
    [ progress cbn [includes starts_with String.append Ascii.eqb Bool.eqb andb orb]
    | rewrite append_assoc
    | rewrite includes_skip
        by first [ solve [auto] | apply number_to_string_plain; vm_compute; lia
                 | apply bool_to_string_plain ]
    | rewrite includes_plain by solve [auto] ].

Lemma build_text_has_no_section (p : params) (stamp : string) :
  has_char "[" stamp = false ->
  (forall g, has_char "[" (grams_to_string g) = false) ->
  includes "[cloudflare]" (join LF (build_lines p stamp)) = false.
Proof.
  intros Hs Hg. unfold build_lines, push. cbn [app]. rewrite !join_cons.
  cbn [join String.concat]. rewrite DQ_char, LF_char. scan_plain. reflexivity.
Qed.

(** X8.  The report holds the analytics section exactly when analytics
    were passed in: with analytics its text contains [[cloudflare]],
    whatever the fields hold; and, time stamps and numbers rendering
    without an opening bracket, a text that contains [[cloudflare]] was
    composed with analytics. *)
Theorem section_marks_analytics (p : params) (e : env) (s : state) :
  exists text,
    buildCarbonTxt p e s = (Return text, mkState (S (ticks s)) (trace s))
    /\ (cloudflareAnalytics p <> None -> includes "[cloudflare]" text = true)
    /\ (renders_plainly ->
        includes "[cloudflare]" text = true -> cloudflareAnalytics p <> None).
Proof.
  eexists. split; [apply buildCarbonTxt_eq|]. split.
  - destruct (cloudflareAnalytics p) as [a|] eqn:H; [intros _ | congruence].
    apply includes_join. rewrite (report_lines_split p a _ H).
    apply in_or_app. right. apply in_or_app. left.
    unfold section_lines, cloudflare_lines, push. cbn [fold_left daily without_daily app].
    right. left. reflexivity.
  - intros [Hs Hg] Hin. destruct (cloudflareAnalytics p) as [a|] eqn:H; [discriminate|].
    rewrite report_lines_without in Hin by exact H.
    rewrite build_text_has_no_section in Hin by auto. discriminate.
Qed.

Lemma daily_blocks_length (em : co2 grams) (g : bool) (ds : list Day.t) :
  List.length (concat (map (Spec.daily_block em g) ds)) = 6 * List.length ds.
Proof.
  induction ds as [|d ds IH]; [reflexivity|].
  cbn [map concat]. rewrite length_app, IH. cbn [Spec.daily_block List.length]. lia.
Qed.

(** X9.  Analytics only add to the report: the text composed with
    analytics is the text composed without them (at the same clock
    reading), then the eight lines of the analytics section, then the daily
    blocks.  A report has 9 lines without analytics and 17 and six per
    daily entry with them. *)
Theorem analytics_extend_the_report
    (p : params) (a : CloudflareAnalyticsResult) (e : env) (s : state) :
  cloudflareAnalytics p = Some a ->
  let stamp := toISOString (clock e (ticks s)) in
  exists base,
    buildCarbonTxt (without_analytics p) e s
    = (Return base, mkState (S (ticks s)) (trace s))
    /\ buildCarbonTxt p e s
       = (Return (base +++ LF +++ join LF (section_lines p a)
                  +++ Spec.blocks_text (emissions p) (greenHosting p) (daily a)),
          mkState (S (ticks s)) (trace s))
    /\ List.length (report_lines (without_analytics p) stamp) = 9
    /\ List.length (section_lines p a) = 8
    /\ List.length (report_lines p stamp) = 17 + 6 * List.length (daily a).
Proof.
  intros H stamp. eexists. split; [apply buildCarbonTxt_eq|]. fold stamp.
  assert (B : report_lines (without_analytics p) stamp = build_lines p stamp) by reflexivity.
  rewrite B. split; [|split; [reflexivity|split; [reflexivity|]]].
  - rewrite buildCarbonTxt_eq. fold stamp. rewrite (report_lines_split p a stamp H).
    rewrite app_assoc, join_blocks by discriminate.
    rewrite join_app by discriminate. now rewrite !append_assoc.
  - rewrite (report_lines_split p a stamp H), !length_app, daily_blocks_length.
    reflexivity.
Qed.

End AnalyticsSection.

(** ** The accountant, entry by entry *)

Section Entries.

Context {RT : Runtime}.

Import Fs.

(** An entry of a directory that resolves is found under its name. *)
Lemma resolve_entry (d : volume) (p name : string) (es : list (string * node))
    (child : node) :
  resolve d p = Some (Dir es) ->
  Spec.wf (Dir es) = true ->
  In (name, child) es ->
  resolve d (p +++ "/" +++ name) = Some child /\ Spec.wf child = true.
Proof.
  intros Hres Hwf Hin. cbn [Spec.wf] in Hwf. apply andb_true_iff in Hwf as [Hd Hall].
  rewrite forallb_forall in Hall. specialize (Hall _ Hin). cbn [fst snd] in Hall.
  apply andb_true_iff in Hall as [Hname Hchild]. split; [|exact Hchild].
  unfold resolve in *. destruct p as [|c p]; [discriminate|]. cbn [String.eqb] in Hres.
  destruct (walk [] (root d) (route d (String c p))) as [[up n]|] eqn:Hw; [|discriminate].
  cbn [option_map snd] in Hres. injection Hres as ->.
  cbn [String.append String.eqb].
  assert (R : route d (String c (p +++ String "/" name)) = route d (String c p) ++ [name]).
  { unfold route, segments.
    change (String c (p +++ String "/" name)) with (String c p +++ String "/" name).
    rewrite split_on_sep, (split_on_plain _ _ (valid_name_plain _ Hname)).
    now rewrite app_assoc. }
  rewrite R, walk_app, Hw, walk_name, (entry_in _ _ _ Hd Hin) by exact Hname.
  reflexivity.
Qed.

Lemma sum_sizes_app (a b : list (list string * N)) :
  Spec.sum_sizes (a ++ b) = (Spec.sum_sizes a + Spec.sum_sizes b)%N.
Proof.
  unfold Spec.sum_sizes. induction a as [|x a IH]; cbn [app fold_right]; [reflexivity|].
  rewrite IH. lia.
Qed.

Lemma sum_sizes_under (name : string) (fs : list (list string * N)) :
  Spec.sum_sizes (map (fun f => (name :: fst f, snd f)) fs) = Spec.sum_sizes fs.
Proof.
  unfold Spec.sum_sizes. induction fs as [|f fs IH]; cbn [map fold_right snd]; [reflexivity|].
  now rewrite IH.
Qed.

Lemma kept_prefix (name : string) (fs : list (list string * N)) :
  (forall f, In f fs -> fst f <> []) ->
  filter (fun f => negb (Spec.excluded (fst f))) (map (fun f => (name :: fst f, snd f)) fs)
  = if existsb (String.eqb name) Spec.ignored_dirs then []
    else map (fun f => (name :: fst f, snd f))
             (filter (fun f => negb (Spec.excluded (fst f))) fs).
Proof.
  induction fs as [|[rel sz] fs IH]; intros Hne.
  - now destruct (existsb _ _).
  - assert (Hrel : rel <> []) by (apply (Hne (rel, sz)); now left).
    assert (IH' := IH (fun f Hf => Hne f (or_intror Hf))). clear IH.
    cbn [map filter fst snd].
    assert (E : Spec.excluded (name :: rel)
                = existsb (String.eqb name) Spec.ignored_dirs || Spec.excluded rel).
    { unfold Spec.excluded, Spec.dir_segments.
      destruct rel as [|x rel]; [congruence | reflexivity]. }
    rewrite E, negb_orb.
    destruct (existsb (String.eqb name) Spec.ignored_dirs); cbn [negb andb].
    + exact IH'.
    + destruct (negb (Spec.excluded rel)); cbn [map fst snd]; now rewrite IH'.
Qed.

(** What the files kept under one entry add up to. *)
Lemma entry_contribution (en : string * node) :
  Spec.sum_sizes
    (filter (fun f => negb (Spec.excluded (fst f)))
            (map (fun f => (fst en :: fst f, snd f)) (Spec.regular_files (snd en))))
  = contribution en.
Proof.
  destruct en as [name child]. unfold contribution. cbn [fst snd].
  destruct child as [sz | es | kind sz]; cbn [is_dir andb].
  - cbn. lia.
  - rewrite kept_prefix.
    + destruct (existsb (String.eqb name) Spec.ignored_dirs); [reflexivity|].
      apply sum_sizes_under.
    + intros f Hf. cbn [Spec.regular_files] in Hf.
      apply in_flat_map in Hf as [e' [_ Hf]]. apply in_map_iff in Hf as [f' [<- _]].
      discriminate.
  - reflexivity.
Qed.

Lemma measure_by_entries (es : list (string * node)) :
  Spec.measure (Dir es) = sum_N (map contribution es).
Proof.
  cbn [Spec.measure]. unfold Spec.kept. cbn [Spec.regular_files].
  induction es as [|en es IH]; [reflexivity|].
  cbn [flat_map map sum_N fold_right]. rewrite filter_app, sum_sizes_app, entry_contribution.
  unfold sum_N in IH. now rewrite IH.
Qed.

(** X10.  Measuring a directory is measuring its entries: the byte count
    of a directory is the sum, over its entries, of the byte count of the
    entry measured on its own path, except that an entry that is a
    directory named [.git] or [node_modules] adds nothing. *)
Theorem directory_measures_as_its_entries
    (p : string) (e : env) (s : state) (es : list (string * node)) :
  resolve (disk e) p = Some (Dir es) ->
  Spec.wf (Dir es) = true ->
  calculateBytes p e s = (Return (sum_N (map contribution es)), s)
  /\ (forall name child,
        In (name, child) es ->
        calculateBytes (p +++ "/" +++ name) e s = (Return (Spec.measure child), s)
        /\ contribution (name, child)
           = if is_dir child && existsb (String.eqb name) [".git"; "node_modules"]
             then 0%N else Spec.measure child).
Proof.
  intros Hres Hwf. split.
  - rewrite (calculateBytes_resolved p e s _ Hres Hwf). now rewrite measure_by_entries.
  - intros name child Hin. split; [|reflexivity].
    destruct (resolve_entry _ _ _ _ _ Hres Hwf Hin) as [Hc Hw].
    exact (calculateBytes_resolved _ e s child Hc Hw).
Qed.



(** X11.  On a well-formed tree the accountant fails in one way only: it
    throws exactly when the path does not exist, and then the [Error] with
    the message [Path not found: ] and the path; in every case it leaves
    the state as it found it. *)
Theorem accountant_fails_only_on_a_missing_path (p : string) (e : env) (s : state) :
  (forall n, resolve (disk e) p = Some n -> Spec.wf n = true) ->
  snd (calculateBytes p e s) = s
  /\ ((exists x, fst (calculateBytes p e s) = Throw x) <-> exists_ (disk e) p = false)
  /\ (forall x, fst (calculateBytes p e s) = Throw x ->
                x = JsError ("Path not found: " +++ p)).
Proof.
  intros Hwf. unfold exists_.
  destruct (resolve (disk e) p) as [n|] eqn:Hres.
  - rewrite (calculateBytes_resolved p e s n Hres (Hwf n eq_refl)). cbn [fst snd].
    split; [reflexivity|]. split; [|discriminate].
    split; [intros [x H]; discriminate | discriminate].
  - assert (Hex : exists_ (disk e) p = false) by (unfold exists_; now rewrite Hres).
    rewrite (calculateBytes_not_found p e s Hex). cbn [fst snd].
    split; [reflexivity|]. split.
    + split; [reflexivity | intros _; eexists; reflexivity].
    + intros x E. now injection E as <-.
Qed.

End Entries.

(** ** Every run *)

Section Runs.

Context {RT : Runtime}.







End Runs.

(** ** The properties at work on the sample site *)

#[local] Existing Instance Fake.runtime.

Lemma zeros_plain (c : ascii) (k : nat) :
  c <> "0"%char -> has_char c (Fake.zeros k) = false.
Proof.
  intros H. induction k as [|k IH]; [reflexivity|].
  cbn [Fake.zeros has_char]. rewrite IH, orb_false_r.
  apply Ascii.eqb_neq. congruence.
Qed.

Lemma pad_plain (width : nat) (z : Z) : has_char "[" (Fake.pad width z) = false.
Proof.
  unfold Fake.pad. rewrite has_char_append, zeros_plain by discriminate.
  apply number_to_string_plain. vm_compute. lia.
Qed.

(** The deterministic runtime renders stamps and estimates plainly. *)
Lemma fake_renders_plainly : renders_plainly (RT := Fake.runtime).
Proof.
  split.
  - intros t. cbn [toISOString Fake.runtime]. unfold Fake.iso.
    destruct (Fake.civil (t / 86400000)) as [[y m] d].
    repeat (rewrite has_char_append; rewrite ?pad_plain; cbn [has_char orb Ascii.eqb Bool.eqb]).
    reflexivity.
  - intros g. apply number_to_string_plain. vm_compute. lia.
Qed.


Lemma missing_path_fails_the_run_witness :
  let e := Example.env_of [("path", "dist")] (Rejects (JsError "offline")) in
  Fs.exists_ (disk e) (inputPath e) = false
  /\ run e Example.start
     = (Return tt,
        mkState 0 [ Log "Measuring size for path: dist";
                    Log "Green hosting: false";
                    Log "Destination: .";
                    Log "Cloudflare integration enabled: false";
                    SetFailed "Path not found: dist" ])
  /\ exists s',
       run e Example.start = (Return tt, s')
       /\ failures (trace s') = ["Path not found: dist"]
       /\ written (trace s') = []
       /\ made (trace s') = [].
Proof.
  intros e. split; [reflexivity|]. split; [reflexivity|].
  exact (proj2 (missing_path_fails_the_run (RT := Fake.runtime) e Example.start eq_refl)).
Defined.

Lemma calculateBytes_measures_witness :
  let e := Example.env_of [] (Rejects (JsError "offline")) in
  Fs.resolve (disk e) "site" = Some Example.site
  /\ Spec.wf Example.site = true
  /\ calculateBytes "site" e Example.start = (Return 355%N, Example.start)
  /\ Fs.resolve (disk e) "/work/site/index.html" = Some (Fs.File 100)
  /\ calculateBytes "/work/site/index.html" e Example.start = (Return 100%N, Example.start)
  /\ calculateBytes "empty" e Example.start = (Return 0%N, Example.start).
Proof.
  intros e. split; [reflexivity|]. split; [reflexivity|].
  split; [exact (proj1 (calculateBytes_measures (RT := Fake.runtime)
                          "site" e Example.start Example.site eq_refl eq_refl))|].
  split; [reflexivity|].
  split; [exact (proj1 (calculateBytes_measures (RT := Fake.runtime)
                          "/work/site/index.html" e Example.start (Fs.File 100)
                          eq_refl eq_refl))|].
  exact (proj1 (calculateBytes_measures (RT := Fake.runtime)
                  "empty" e Example.start (Fs.Dir []) eq_refl eq_refl)).
Defined.



Lemma missing_credentials_degrade_witness :
  let config := mkConfig (Some "token") None None None true in
  let e := Example.env_of [] (Example.answers (Example.body Example.two_days)) in
  enabled config = true
  /\ (apiToken config = None \/ zoneId config = None)
  /\ fetchCloudflareAnalytics config e Example.start
     = (Return None, mkState 0 [Warning missing_credentials]).
Proof.
  intros config e. split; [reflexivity|]. split; [right; reflexivity|].
  exact (missing_credentials_degrade (RT := Fake.runtime) config e Example.start
           eq_refl (or_intror eq_refl)).
Defined.


Lemma report_without_analytics_witness :
  let e := Example.env_of [] (Rejects (JsError "offline")) in
  let p := mkParams 350 false (1050%Z : grams) None (new_co2 "1byte") in
  renders_plainly (RT := Fake.runtime)
  /\ cloudflareAnalytics p = None
  /\ exists text,
       buildCarbonTxt p e Example.start = (Return text, mkState 1 [])
       /\ includes "[cloudflare]" text = false
       /\ includes "[build]" text = true
       /\ includes ("total_bytes = 350" +++ LF +++ "green_hosting = false") text = true.
Proof.
  intros e p. split; [exact fake_renders_plainly|]. split; [reflexivity|].
  destruct (report_without_analytics (RT := Fake.runtime) p e Example.start
              fake_renders_plainly eq_refl) as [text [H [E [H1 _]]]].
  exists text. split; [exact H|]. split; [exact H1|].
  rewrite E. split; vm_compute; reflexivity.
Defined.

Lemma empty_credential_is_missing_witness :
  let config := mkConfig (Some EmptyString) (Some "zone") None None true in
  let e := Example.env_of [] (Example.answers (Example.body Example.two_days)) in
  enabled config = true
  /\ (apiToken config = Some EmptyString \/ zoneId config = Some EmptyString)
  /\ fetchCloudflareAnalytics config e Example.start
     = (Return None, mkState 0 [Warning missing_credentials])
  /\ fetchCloudflareAnalytics config e Example.start
     = fetchCloudflareAnalytics (without_token config) e Example.start.
Proof.
  intros config e. split; [reflexivity|]. split; [left; reflexivity|].
  destruct (empty_credential_is_missing (RT := Fake.runtime) config e Example.start
              eq_refl (or_introl eq_refl)) as [H [Ht _]].
  split; [exact H | exact (Ht eq_refl)].
Defined.

Lemma special_file_measures_zero_witness :
  let e := Example.env_of [] (Rejects (JsError "offline")) in
  Fs.resolve (disk e) "site/assets/queue" = Some (Fs.Special Fs.Fifo 0)
  /\ calculateBytes "site/assets/queue" e Example.start = (Return 0%N, Example.start).
Proof.
  intros e. split; [reflexivity|].
  exact (special_file_measures_zero (RT := Fake.runtime)
           "site/assets/queue" e Example.start Fs.Fifo 0%N eq_refl).
Defined.

(** ** More of the sample site *)

Lemma result_reports_the_request_witness :
  let e := Example.env_of Example.credentials (Example.answers (Example.body Example.two_days)) in
  let s' := mkState 1 [Fetch (issued_request Example.config (clock e 0))] in
  fetchCloudflareAnalytics Example.config e Example.start
  = (Return (Some Example.two_day_result), s')
  /\ zoneId Example.config = Some "zone"
  /\ fetches (trace s')
     = [analytics_request Example.config "2023-12-02" "2024-01-01"]
  /\ warnings (trace s') = [].
Proof.
  intros e s'.
  assert (H : fetchCloudflareAnalytics Example.config e Example.start
              = (Return (Some Example.two_day_result), s')) by reflexivity.
  split; [exact H|].
  destruct (result_reports_the_request (RT := Fake.runtime)
              Example.config e Example.start s' Example.two_day_result H)
    as [Hz [_ [Hf [Hw _]]]].
  split; [exact Hz|]. split; [exact Hf | exact Hw].
Defined.

Lemma failed_calls_say_why_witness :
  let r := mkResponse false 503 "Service Unavailable" (Return VNull) in
  let e := Example.env_of Example.credentials (Responds r) in
  authorised Example.config = true
  /\ fetchCloudflareAnalytics Example.config e Example.start
     = (Return None,
        mkState 1 [ Fetch (issued_request Example.config (clock e 0));
                    Warning "Cloudflare API request failed: 503 Service Unavailable" ]).
Proof.
  intros r e. split; [reflexivity|].
  exact (proj1 (proj2 (failed_calls_say_why (RT := Fake.runtime)
                         Example.config e Example.start eq_refl))
           r eq_refl eq_refl).
Defined.

Lemma bare_body_gives_empty_analytics_witness :
  let data := VObj [("errors", VArr [])] in
  let e := Example.env_of Example.credentials (Example.answers data) in
  authorised Example.config = true
  /\ nullish data = false
  /\ member data "errors" = VArr []
  /\ nullish (daily_groups data) = true
  /\ fetchCloudflareAnalytics Example.config e Example.start
     = (Return (Some (mkResult "zone" (TimeRange.mk "2023-12-02" "2024-01-01")
                               (Totals.mk 0 0) [])),
        mkState 1 [Fetch (issued_request Example.config (clock e 0))]).
Proof.
  intros data e. split; [reflexivity|]. split; [reflexivity|].
  split; [reflexivity|]. split; [reflexivity|].
  exact (bare_body_gives_empty_analytics (RT := Fake.runtime)
           Example.config e Example.start
           (mkResponse true 200 "OK" (Return data)) data
           eq_refl eq_refl eq_refl eq_refl eq_refl (or_intror eq_refl) eq_refl).
Defined.

(** The result the fetcher returns for the groups with holes. *)
Lemma ragged_result :
  let e := Example.env_of Example.credentials (Example.answers (Example.body Example.ragged)) in
  fetchCloudflareAnalytics Example.config e Example.start
  = (Return (Some (mkResult "zone" (TimeRange.mk "2023-12-02" "2024-01-01")
                            (Totals.mk 15 1040)
                            [ Day.mk (VStr "2024-01-01") (VNum 10) (VNum 1000);
                              Day.mk (VStr "2024-01-03") (VNum 0) (VNum 0);
                              Day.mk (VStr "2024-01-04") (VNum 1) (VNum 0) ])),
     mkState 1 [Fetch (issued_request Example.config (clock e 0))]).
Proof. reflexivity. Defined.

Lemma daily_entries_are_dated_witness :
  let e := Example.env_of Example.credentials (Example.answers (Example.body Example.ragged)) in
  let days := [ Day.mk (VStr "2024-01-01") (VNum 10) (VNum 1000);
                Day.mk (VStr "2024-01-03") (VNum 0) (VNum 0);
                Day.mk (VStr "2024-01-04") (VNum 1) (VNum 0) ] in
  Forall (fun d => truthy (Day.date d) = true
                   /\ nullish (Day.requests d) = false
                   /\ nullish (Day.bytes d) = false)
         days
  /\ exists r data groups,
       network e (issued_request Example.config (clock e 0)) = Responds r
       /\ json r = Return data
       /\ iterate "groups" (groups_of data) = Return groups
       /\ days
          = map (fun g => Day.mk (Spec.date_of g) (Spec.requests_of g) (Spec.bytes_of g))
                (filter (fun g => truthy (Spec.date_of g)) groups)
       /\ List.length days <= List.length groups.
Proof.
  intros e days.
  exact (daily_entries_are_dated (RT := Fake.runtime)
           Example.config e Example.start _ _ ragged_result).
Defined.


Lemma analytics_extend_the_report_witness :
  let e := Example.env_of [] (Rejects (JsError "offline")) in
  let p := mkParams 350 false (1050%Z : grams) (Some Example.two_day_result)
                    (new_co2 "1byte") in
  cloudflareAnalytics p = Some Example.two_day_result
  /\ exists base,
       buildCarbonTxt (without_analytics p) e Example.start = (Return base, mkState 1 [])
       /\ buildCarbonTxt p e Example.start
          = (Return (base +++ LF +++ join LF (section_lines p Example.two_day_result)
                     +++ Spec.blocks_text (new_co2 "1byte") false
                           (daily Example.two_day_result)),
             mkState 1 [])
       /\ List.length (report_lines p "2024-01-01T00:00:00.123Z") = 29.
Proof.
  intros e p. split; [reflexivity|].
  destruct (analytics_extend_the_report (RT := Fake.runtime)
              p Example.two_day_result e Example.start eq_refl)
    as [base [H0 [H1 [_ [_ H2]]]]].
  exists base. split; [exact H0|]. split; [exact H1 | exact H2].
Defined.

Lemma directory_measures_as_its_entries_witness :
  let e := Example.env_of [] (Rejects (JsError "offline")) in
  Fs.resolve (disk e) "site" = Some Example.site
  /\ Spec.wf Example.site = true
  /\ calculateBytes "site" e Example.start = (Return (100 + 250 + 0 + 5)%N, Example.start)
  /\ calculateBytes "site/.git" e Example.start = (Return 23%N, Example.start)
  /\ calculateBytes "site/assets" e Example.start = (Return 5%N, Example.start).
Proof.
  intros e. split; [reflexivity|]. split; [reflexivity|].
  destruct (directory_measures_as_its_entries (RT := Fake.runtime)
              "site" e Example.start _ eq_refl eq_refl) as [H Hc].
  split; [exact H|]. split.
  - exact (proj1 (Hc ".git" (Fs.Dir [("HEAD", Fs.File 23)])
                    (or_intror (or_intror (or_introl eq_refl))))).
  - exact (proj1 (Hc "assets" _ (or_intror (or_intror (or_intror (or_introl eq_refl)))))).
Defined.

Lemma accountant_fails_only_on_a_missing_path_witness :
  let e := Example.env_of [] (Rejects (JsError "offline")) in
  (forall n, Fs.resolve (disk e) "dist" = Some n -> Spec.wf n = true)
  /\ Fs.exists_ (disk e) "dist" = false
  /\ exists x, fst (calculateBytes "dist" e Example.start) = Throw x
               /\ x = JsError "Path not found: dist".
Proof.
  intros e.
  assert (W : forall n, Fs.resolve (disk e) "dist" = Some n -> Spec.wf n = true)
    by (intros n H; discriminate H).
  split; [exact W|]. split; [reflexivity|].
  destruct (accountant_fails_only_on_a_missing_path (RT := Fake.runtime)
              "dist" e Example.start W) as [_ [Hiff Hmsg]].
  destruct (proj2 Hiff eq_refl) as [x Hx].
  exists x. split; [exact Hx | exact (Hmsg x Hx)].
Defined.


